(** * SimGUI: the batch store, the card session and the ADM1 dialog

    A shallow embedding of [managers/csv_manager.py], [managers/card_manager.py]
    and the decision logic of [dialogs/adm1_dialog.py], with the properties
    of the specification that concern them.

    Conventions.
    - A Python [str] is a [string]; its characters stand for the code points
      U+0000..U+00FF, and the character classes below ([isdigit], [isspace])
      are Python's on that range.
    - A Python [int] is a [Z]; list positions are [nat] once the bounds test
      [0 <= index < len(...)] has passed.
    - A [dict] is an association list in insertion order with the update
      discipline of [dict_set] (overwrite in place, else append).  The rows
      of a batch are dict objects: each row is kept with the identity of
      its object, and an assignment through one row reaches every row that
      holds the same object.
    - A call that raises returns [Raises]; the calls that cannot raise
      return their value directly.
    - The file system and the spawned process are inputs of the operations
      that use them: what [open]/[csv.reader] deliver, what
      [subprocess.run] does. *)

From Stdlib Require Import ZArith String Ascii List Bool Lia.
From stdpp Require Import base tactics list strings pretty.
Import ListNotations.

Local Open Scope string_scope.
Local Open Scope list_scope.
Local Open Scope Z_scope.

(** ** Python strings *)

Module PyStr.

Definition code (c : ascii) : N := N_of_ascii c.

Definition in_range (lo hi : N) (c : ascii) : bool :=
  ((lo <=? code c) && (code c <=? hi))%N.

(** [ch.isdigit()]: the ASCII digits and, above them, the superscripts
    U+00B2, U+00B3 and U+00B9 (Numeric_Type=Digit). *)
Definition isdigit_char (c : ascii) : bool :=
  in_range 48 57 c || in_range 178 179 c || in_range 185 185 c.

(** [ch.isspace()]: TAB..CR, FS..US, SPACE, NEL and NBSP. *)
Definition isspace_char (c : ascii) : bool :=
  in_range 9 13 c || in_range 28 32 c || in_range 133 133 c
  || in_range 160 160 c.

Fixpoint all_chars (p : ascii -> bool) (s : string) : bool :=
  match s with
  | EmptyString => true
  | String c s' => p c && all_chars p s'
  end.

(** [bool(s)]: a string is truthy when it is not empty. *)
Definition truthy (s : string) : bool :=
  match s with EmptyString => false | String _ _ => true end.

(** [s.isdigit()]: at least one character and every character a digit. *)
Definition isdigit (s : string) : bool :=
  truthy s && all_chars isdigit_char s.

(** [len(s)] *)
Definition len (s : string) : Z := Z.of_nat (String.length s).

(** [c in lit] for a one-character string [c]. *)
Fixpoint char_in (c : ascii) (lit : string) : bool :=
  match lit with
  | EmptyString => false
  | String d lit' => if ascii_dec c d then true else char_in c lit'
  end.

(** [s.replace(ch, '')] for a one-character [ch]. *)
Fixpoint remove_char (ch : ascii) (s : string) : string :=
  match s with
  | EmptyString => EmptyString
  | String c s' =>
      if ascii_dec c ch then remove_char ch s'
      else String c (remove_char ch s')
  end.

Fixpoint lstrip (s : string) : string :=
  match s with
  | EmptyString => EmptyString
  | String c s' => if isspace_char c then lstrip s' else s
  end.

Fixpoint rstrip (s : string) : string :=
  match s with
  | EmptyString => EmptyString
  | String c s' =>
      match rstrip s' with
      | EmptyString => if isspace_char c then EmptyString
                       else String c EmptyString
      | r => String c r
      end
  end.

(** [s.strip()] *)
Definition strip (s : string) : string := rstrip (lstrip s).

(** [s.startswith(ch)] for a one-character [ch]. *)
Definition startswith_char (ch : ascii) (s : string) : bool :=
  match s with
  | EmptyString => false
  | String c _ => if ascii_dec c ch then true else false
  end.

(** [s.partition(ch)]: the text before the first [ch], whether [ch] was
    found, and the text after it. *)
Fixpoint partition (ch : ascii) (s : string) : string * bool * string :=
  match s with
  | EmptyString => (EmptyString, false, EmptyString)
  | String c s' =>
      if ascii_dec c ch then (EmptyString, true, s')
      else let '(h, found, t) := partition ch s' in (String c h, found, t)
  end.

(** [str(n)] and the [{n}] of an f-string, for an integer. *)
Definition of_int (n : Z) : string := pretty n.

(** The exceptions the modelled calls let escape. *)
Inductive exn : Type := ValueError.

Inductive outcome (A : Type) : Type :=
| Returns (a : A)
| Raises (e : exn).

Arguments Returns {A} a.
Arguments Raises {A} e.

(** [sys.int_info.default_max_str_digits] *)
Definition max_str_digits : Z := 4300.

(** [str(n)] with the limit CPython puts on it: an integer of more than
    [max_str_digits] decimal digits (the sign not counted) is refused with
    [ValueError]. *)
Definition format_int (n : Z) : outcome string :=
  if Z.abs n <? 10 ^ max_str_digits then Returns (of_int n)
  else Raises ValueError.

End PyStr.

(** ** Python dictionaries with string keys *)

(** The values a record holds: a string, or [None] (what [csv.DictReader]
    stores under the columns a short row does not reach). *)
Inductive pyval : Type :=
| PyNone
| PyStr (s : string).

Definition pydict : Type := list (string * pyval).

Fixpoint dict_get (k : string) (d : pydict) : option pyval :=
  match d with
  | [] => None
  | (k', v) :: d' => if String.eqb k k' then Some v else dict_get k d'
  end.

(** [d[k] = v] *)
Fixpoint dict_set (k : string) (v : pyval) (d : pydict) : pydict :=
  match d with
  | [] => [(k, v)]
  | (k', v') :: d' =>
      if String.eqb k k' then (k', v) :: d' else (k', v') :: dict_set k v d'
  end.

Definition dict_keys (d : pydict) : list string := map fst d.

(** [d.get(k, default)] *)
Definition dict_get_default (k : string) (default : pyval) (d : pydict) : pyval :=
  match dict_get k d with
  | Some v => v
  | None => default
  end.

(** [dict(zip(ks, vs))] *)
Fixpoint dict_of_zip (ks : list string) (vs : list pyval) (d : pydict) : pydict :=
  match ks, vs with
  | k :: ks', v :: vs' => dict_of_zip ks' vs' (dict_set k v d)
  | _, _ => d
  end.

(** [k in l] for a list of strings. *)
Definition str_in (k : string) (l : list string) : bool :=
  existsb (String.eqb k) l.

Fixpoint enumerate_from {A : Type} (n : nat) (l : list A) : list (nat * A) :=
  match l with
  | [] => []
  | x :: l' => (n, x) :: enumerate_from (S n) l'
  end.

(** [enumerate(l)] *)
Definition enumerate {A : Type} (l : list A) : list (nat * A) :=
  enumerate_from 0 l.

(** ** Classes of characters and texts, written out

    The statements about digits, spaces and hexadecimal characters speak
    through these definitions.  They list the characters one by one and
    use none of the functions that model the program. *)

Module Plain.

Definition decimal_digits : list ascii :=
  ["0"; "1"; "2"; "3"; "4"; "5"; "6"; "7"; "8"; "9"]%char.

(** The superscripts two, three and one: U+00B2, U+00B3 and U+00B9. *)
Definition superscript_digits : list ascii :=
  ["178"; "179"; "185"]%char.

(** The characters of U+0000..U+00FF that Python's [str.isdigit] takes
    for digits. *)
Definition python_digits : list ascii :=
  decimal_digits ++ superscript_digits.

Definition hex_digits : list ascii :=
  decimal_digits
  ++ ["a"; "b"; "c"; "d"; "e"; "f"; "A"; "B"; "C"; "D"; "E"; "F"]%char.

Definition chars (s : string) : list ascii := list_ascii_of_string s.

(** Every character of the text is of the class. *)
Definition made_of (class : list ascii) (s : string) : Prop :=
  Forall (fun c => In c class) (chars s).

(** The characters of the text that are not the space U+0020. *)
Definition without_spaces (s : string) : list ascii :=
  List.filter (fun c => negb (Ascii.eqb c " ")) (chars s).

(** Once its spaces are taken out, the text is exactly 32 hexadecimal
    characters. *)
Definition hex32_apart_from_spaces (s : string) : Prop :=
  length (without_spaces s) = 32%nat
  /\ Forall (fun c => In c hex_digits) (without_spaces s).


(** A text of exactly [n] characters that [str.isdigit] takes for
    digits. *)
Definition digits_of_length (n : nat) (s : string) : Prop :=
  String.length s = n /\ made_of python_digits s.

End Plain.

(** ** [managers/csv_manager.py] *)

Module Csv.

Definition STANDARD_COLUMNS : list string :=
  [ "ICCID"; "IMSI"; "Ki"; "OPc"; "ADM1";
    "MNC_LENGTH"; "ALGO_2G"; "ALGO_3G"; "ALGO_4G5G";
    "USE_OPC"; "HPLMN" ].

(** One row of the batch.  [fields] are the entries under string keys;
    [rest] is the entry [csv.DictReader] files under the key [None]
    (its [restkey]) when a row has more cells than the header. *)
Record card : Type := mkCard {
  fields : pydict;
  rest : option (list string)
}.

(** The manager.  [entries] is [self.cards]: the dict objects in order,
    each as the identity of the object and its present content.  Two
    positions with the same identity hold one and the same dict. *)
Record CSVManager : Type := mkCSVManager {
  entries : list (nat * card);
  columns : list string;
  filepath : option string
}.

(** The rows as they read. *)
Definition cards (m : CSVManager) : list card := map snd (entries m).

(** The identity of a dict created now: one that no row holds. *)
Definition fresh_object (es : list (nat * card)) : nat :=
  S (fold_right Nat.max 0%nat (map fst es)).

(** [CSVManager()] *)
Definition init : CSVManager :=
  {| entries := []; columns := STANDARD_COLUMNS; filepath := None |}.

(** *** What the file system delivers *)

(** A CSV file as [csv.reader] sees it: the rows of cells, a blank line
    being the row [[]].  [Unreadable] is a file that cannot be opened;
    [Readable rows broken] delivers [rows] and then, when [broken], raises
    at the next row (a decoding or a [csv.Error]). *)
Inductive csv_source : Type :=
| Unreadable
| Readable (rows : list (list string)) (broken : bool).

(** One data row of [csv.DictReader] with the given field names:
    [dict(zip(fieldnames, row))], the surplus cells under [restkey], the
    missing columns set to [restval] (both [None]). *)
Definition dictreader_row (fieldnames row : list string) : card :=
  let d := dict_of_zip fieldnames (map PyStr row) [] in
  let lf := length fieldnames in
  let lr := length row in
  if (lf <? lr)%nat then
    {| fields := d; rest := Some (drop lf row) |}
  else
    {| fields := fold_left (fun d key => dict_set key PyNone d)
                           (drop lr fieldnames) d;
       rest := None |}.

Definition is_blank_row (row : list string) : bool :=
  match row with [] => true | _ => false end.

(** [[dict(row) for row in reader]]: blank rows are skipped. *)
Definition dictreader_rows (fieldnames : list string)
    (rows : list (list string)) : list card :=
  map (dictreader_row fieldnames)
      (List.filter (fun r => negb (is_blank_row r)) rows).

(** [load_csv]: the result flag and the manager afterwards.  The columns
    are assigned before the rows are read, so a file that breaks after its
    header leaves the new columns with the old cards. *)
Definition load_csv (src : csv_source) (path : string) (m : CSVManager)
    : bool * CSVManager :=
  match src with
  | Unreadable => (false, m)
  | Readable [] _ => (false, m)
  | Readable (fieldnames :: rows) broken =>
      if broken then
        (false, {| entries := entries m; columns := fieldnames;
                   filepath := filepath m |})
      else
        (true, {| entries := enumerate (dictreader_rows fieldnames rows);
                  columns := fieldnames;
                  filepath := Some path |})
  end.

(** The text [csv.writer] puts in a cell: [None] is written as the empty
    string. *)
Definition cell_text (v : pyval) : string :=
  match v with
  | PyNone => ""
  | PyStr s => s
  end.

(** [DictWriter._dict_to_list] with [extrasaction='ignore'] and the default
    [restval='']. *)
Definition dict_to_list (fieldnames : list string) (c : card) : list string :=
  map (fun key => cell_text (dict_get_default key (PyStr "") (fields c)))
      fieldnames.

(** [save_csv]: the result flag, the manager afterwards and the rows
    written.  [writable] tells whether the file can be opened for
    writing. *)
Definition save_csv (writable : bool) (path : string) (m : CSVManager)
    : bool * CSVManager * option (list (list string)) :=
  if writable then
    (true,
     {| entries := entries m; columns := columns m; filepath := Some path |},
     Some (columns m :: map (dict_to_list (columns m)) (cards m)))
  else (false, m, None).

(** *** What [csv.reader] makes of a written file *)






(** One line of a parameter file, folded into [card_data]. *)
Definition parameter_line (card_data : pydict) (line : string) : pydict :=
  let line := PyStr.strip line in
  if negb (PyStr.truthy line) || PyStr.startswith_char "#" line then card_data
  else
    let '(key, found, value) := PyStr.partition "=" line in
    if found then dict_set (PyStr.strip key) (PyStr (PyStr.strip value)) card_data
    else card_data.

(** The merge loop of [load_card_parameters_file]. *)
Definition merge_columns (cols : list string) (keys : list string) : list string :=
  fold_left (fun cols k => if str_in k cols then cols else cols ++ [k])
            keys cols.

(** [load_card_parameters_file]: [src] is the lines of the file, or [None]
    when it cannot be read. *)
Definition load_card_parameters_file (src : option (list string))
    (m : CSVManager) : bool * CSVManager :=
  match src with
  | None => (false, m)
  | Some lines =>
      let card_data := fold_left parameter_line lines [] in
      match card_data with
      | [] => (false, m)
      | _ =>
          (true,
           {| entries := entries m
                         ++ [ (fresh_object (entries m),
                               {| fields := card_data; rest := None |}) ];
              columns := merge_columns (columns m) (dict_keys card_data);
              filepath := filepath m |})
      end
  end.

Definition get_card_count (m : CSVManager) : Z :=
  Z.of_nat (length (cards m)).

(** [0 <= index < len(self.cards)] *)
Definition in_range (index : Z) (m : CSVManager) : bool :=
  (0 <=? index) && (index <? Z.of_nat (length (cards m))).

Definition get_card (index : Z) (m : CSVManager) : option card :=
  if in_range index m then cards m !! Z.to_nat index else None.

(** [{col: '' for col in self.columns}] *)
Definition empty_card (cols : list string) : card :=
  {| fields := fold_left (fun d col => dict_set col (PyStr "") d) cols [];
     rest := None |}.

Definition add_card (card_data : option card) (m : CSVManager) : CSVManager :=
  let c := match card_data with
           | None => empty_card (columns m)
           | Some c => c
           end in
  {| entries := entries m ++ [(fresh_object (entries m), c)];
     columns := columns m; filepath := filepath m |}.

(** [m.add_card(m.get_card(index))]: the dict [get_card] hands out is the
    stored object itself, so the new row holds the same object as the row
    at [index]; outside the range [get_card] hands out [None] and
    [add_card] makes an empty row. *)
Definition add_stored_card (index : Z) (m : CSVManager) : CSVManager :=
  if (0 <=? index) && (index <? Z.of_nat (length (cards m))) then
    match entries m !! Z.to_nat index with
    | Some e =>
        {| entries := entries m ++ [e];
           columns := columns m; filepath := filepath m |}
    | None => add_card None m
    end
  else add_card None m.

Definition remove_card (index : Z) (m : CSVManager) : bool * CSVManager :=
  if in_range index m then
    (true, {| entries := delete (Z.to_nat index) (entries m);
              columns := columns m; filepath := filepath m |})
  else (false, m).

Definition card_set (key value : string) (c : card) : card :=
  {| fields := dict_set key (PyStr value) (fields c); rest := rest c |}.

(** [self.cards[index][key] = value] on the entries: the assignment
    changes the dict object at [index], hence every row that holds that
    object. *)
Definition assign (index : nat) (key value : string)
    (es : list (nat * card)) : list (nat * card) :=
  match es !! index with
  | Some (target, _) =>
      map (fun e : nat * card =>
             if Nat.eqb (fst e) target
             then (fst e, card_set key value (snd e)) else e)
          es
  | None => es
  end.

Definition update_card (index : Z) (key value : string) (m : CSVManager)
    : bool * CSVManager :=
  if in_range index m then
    (true, {| entries := assign (Z.to_nat index) key value (entries m);
              columns := columns m; filepath := filepath m |})
  else (false, m).

(** *** Validation *)

Definition hexdigits : string := "0123456789abcdefABCDEF".

(** [f"Row {row}: {what}"] *)
Definition row_message (row : Z) (what : string) : string :=
  "Row " +:+ PyStr.of_int row +:+ ": " +:+ what.

(** [v and cond(v)] for a value that is a string or [None]. *)
Definition nonempty_and (v : pyval) (cond : string -> bool) : bool :=
  match v with
  | PyNone => false
  | PyStr s => PyStr.truthy s && cond s
  end.

Definition bad_digits (lo hi : Z) (s : string) : bool :=
  negb (PyStr.isdigit s)
  || negb ((lo <=? PyStr.len s) && (PyStr.len s <=? hi)).

Definition bad_hex32 (s : string) : bool :=
  let clean := PyStr.remove_char " " s in
  negb (PyStr.len clean =? 32)
  || negb (PyStr.all_chars (fun c => PyStr.char_in c hexdigits) clean).

Definition bad_adm1 (s : string) : bool :=
  negb (PyStr.len s =? 8).

(** The body of the loop of [validate_all], for the card at position [i]. *)
Definition validate_step (errors : list string) (ic : nat * card)
    : list string :=
  let '(i, c) := ic in
  let row := Z.of_nat i + 1 in
  let imsi := dict_get_default "IMSI" (PyStr "") (fields c) in
  let errors :=
    if nonempty_and imsi (bad_digits 6 15)
    then errors ++ [row_message row "IMSI must be 6-15 digits"] else errors in
  let iccid := dict_get_default "ICCID" (PyStr "") (fields c) in
  let errors :=
    if nonempty_and iccid (bad_digits 10 20)
    then errors ++ [row_message row "ICCID must be 10-20 digits"] else errors in
  let ki := dict_get_default "Ki" (PyStr "") (fields c) in
  let errors :=
    if nonempty_and ki bad_hex32
    then errors ++ [row_message row "Ki must be 32 hex chars"] else errors in
  let opc := dict_get_default "OPc" (PyStr "") (fields c) in
  let errors :=
    if nonempty_and opc bad_hex32
    then errors ++ [row_message row "OPc must be 32 hex chars"] else errors in
  let adm1 := dict_get_default "ADM1" (PyStr "") (fields c) in
  if nonempty_and adm1 bad_adm1
  then errors ++ [row_message row "ADM1 must be 8 chars"] else errors.

Definition validate_all (m : CSVManager) : list string :=
  fold_left validate_step (enumerate (cards m)) [].

Definition validate_card (index : Z) (m : CSVManager)
    : PyStr.outcome (list string) :=
  if in_range index m then
    match entries m !! Z.to_nat index with
    | Some e =>
        let mgr := init in
        let mgr := {| entries := [e]; columns := columns mgr;
                      filepath := filepath mgr |} in
        let mgr := {| entries := entries mgr; columns := columns m;
                      filepath := filepath mgr |} in
        PyStr.Returns (validate_all mgr)
    | None => PyStr.Returns []
    end
  else
    match PyStr.format_int index with
    | PyStr.Returns text => PyStr.Returns ["Invalid index: " +:+ text]
    | PyStr.Raises e => PyStr.Raises e
    end.

(** *** Sequences of operations on a batch store *)

Inductive op : Type :=
| Load (src : csv_source) (path : string)
| Import (src : option (list string))
| Add (card_data : option card)
| Remove (index : Z)
| Update (index : Z) (key value : string)
| AddStored (index : Z).

Definition step (o : op) (m : CSVManager) : CSVManager :=
  match o with
  | Load src path => snd (load_csv src path m)
  | Import src => snd (load_card_parameters_file src m)
  | Add card_data => add_card card_data m
  | Remove index => snd (remove_card index m)
  | Update index key value => snd (update_card index key value m)
  | AddStored index => add_stored_card index m
  end.

Definition run (ops : list op) (m : CSVManager) : CSVManager :=
  fold_left (fun m o => step o m) ops m.

Definition is_load (o : op) : bool :=
  match o with Load _ _ => true | _ => false end.

(** *** Vocabulary of the properties *)

(** No colon occurs in the decimal text of an integer. *)
Definition not_colon (c : ascii) : bool :=
  if ascii_dec c ":" then false else true.

(** The five rules of [validate_all]: the field, the test on its non-empty
    text, and the words of the defect. *)
Definition rules : list (string * (string -> bool) * string) :=
  [ ("IMSI", bad_digits 6 15, "IMSI must be 6-15 digits");
    ("ICCID", bad_digits 10 20, "ICCID must be 10-20 digits");
    ("Ki", bad_hex32, "Ki must be 32 hex chars");
    ("OPc", bad_hex32, "OPc must be 32 hex chars");
    ("ADM1", bad_adm1, "ADM1 must be 8 chars") ].

Definition rule_fires (c : card) (r : string * (string -> bool) * string) : bool :=
  let '(key, test, _) := r in
  nonempty_and (dict_get_default key (PyStr "") (fields c)) test.

(** The defects of one row, rule by rule. *)
Definition row_errors (j : nat) (c : card) : list string :=
  flat_map (fun r => if rule_fires c r
                     then [row_message (Z.of_nat j + 1) (snd r)] else [])
           rules.

(** Row [i] (counted from 0) carries the defect [what]. *)
Definition flagged (m : CSVManager) (i : nat) (what : string) : Prop :=
  In (row_message (Z.of_nat i + 1) what) (validate_all m).

(** The field [key] of the card is present and holds the non-empty
    text [s]. *)
Definition present_nonempty (key : string) (c : card) (s : string) : Prop :=
  dict_get key (fields c) = Some (PyStr s) /\ s <> "".

(** Rows that hold one and the same dict read the same. *)
Definition coherent (m : CSVManager) : Prop :=
  forall (i j o : nat) (c c' : card),
    entries m !! i = Some (o, c) -> entries m !! j = Some (o, c') -> c = c'.

(** The five defects and the field each is about. *)
Definition defects : list (string * string) :=
  [ ("IMSI", "IMSI must be 6-15 digits");
    ("ICCID", "ICCID must be 10-20 digits");
    ("Ki", "Ki must be 32 hex chars");
    ("OPc", "OPc must be 32 hex chars");
    ("ADM1", "ADM1 must be 8 chars") ].

(** An IMSI of six superscript twos (U+00B2), and a record that holds
    it. *)
Definition superscript_imsi : string :=
  string_of_list_ascii (repeat "178"%char 6).

Definition superscript_card : card :=
  {| fields := [("IMSI", PyStr superscript_imsi)]; rest := None |}.

(** A batch of three records, the second with a Ki of 31 characters. *)
Definition sample_batch : CSVManager :=
  {| entries :=
       [ (0%nat,
          {| fields := [("IMSI", PyStr "001010000000001");
                        ("Ki", PyStr "00112233445566778899aabbccddeeff")];
             rest := None |});
         (1%nat,
          {| fields := [("IMSI", PyStr "001010000000002");
                        ("Ki", PyStr "00112233445566778899aabbccddeef")];
             rest := None |});
         (2%nat,
          {| fields := [("IMSI", PyStr "001010000000003");
                        ("Ki", PyStr "00 11 22 33 44 55 66 77 88 99 AA BB CC DD EE FF");
                        ("OPc", PyNone); ("ADM1", PyStr "")];
             rest := None |}) ];
     columns := STANDARD_COLUMNS;
     filepath := None |}.

(** The keys that are not yet columns, in their own order. *)
Definition new_keys (cols keys : list string) : list string :=
  List.filter (fun k => negb (str_in k cols)) keys.



(** A record with a field outside the standard columns. *)
Definition annotated_card : card :=
  {| fields := [("ICCID", PyStr "8988211000000000001");
                ("NOTE", PyStr "bench")];
     rest := None |}.

(** *** Vocabulary of the further properties *)

(** What a line of a parameter file assigns, if anything: the reading of
    [parameter_line] as a key and a value. *)
Definition parse_line (line : string) : option (string * string) :=
  let line := PyStr.strip line in
  if negb (PyStr.truthy line) || PyStr.startswith_char "#" line then None
  else
    let '(key, found, value) := PyStr.partition "=" line in
    if found then Some (PyStr.strip key, PyStr.strip value) else None.




(** A file as [save_csv] writes it and [load_csv] reads it back unchanged:
    a header without repetition and rows as wide as the header. *)
Definition rectangular (fieldnames : list string)
    (rows : list (list string)) : Prop :=
  fieldnames <> [] /\ List.NoDup fieldnames
  /\ forall row, In row rows -> length row = length fieldnames.

(** *** [widgets/csv_editor_panel.py]: the validation button *)

Inductive panel_box : Type :=
| ShowWarning (title message : string)
| ShowInfo (title message : string).

Definition newline : string := String (ascii_of_nat 10) EmptyString.

(** [sep.join(l)] *)
Fixpoint join (sep : string) (l : list string) : string :=
  match l with
  | [] => ""
  | [s] => s
  | s :: l' => s +:+ sep +:+ join sep l'
  end.

(** [CSVEditorPanel._on_validate], on the manager of the panel. *)
Definition _on_validate (m : CSVManager) : panel_box :=
  let errors := validate_all m in
  match errors with
  | [] => ShowInfo "Validation" "All rows valid!"
  | _ => ShowWarning "Validation" (join newline errors)
  end.

(** *** [widgets/csv_editor_panel.py]: the table *)

(** What [_refresh_table] puts on the screen: the headings, one line per
    card with its item id and the texts of its cells, and the text of the
    counter. *)
(** The text Tk keeps of a value handed to a widget: [str(value)], so
    that [None] reads "None". *)
Definition tk_text (v : pyval) : string :=
  match v with
  | PyNone => "None"
  | PyStr s => s
  end.

Record table : Type := mkTable {
  headings : list string;
  lines : list (string * list string);
  count_label : string
}.

Definition _refresh_table (m : CSVManager) : table :=
  let cols := columns m in
  {| headings := cols;
     lines :=
       map (fun ic : nat * card =>
              let '(i, c) := ic in
              (PyStr.of_int (Z.of_nat i),
               map (fun col =>
                      tk_text (dict_get_default col (PyStr "") (fields c)))
                   cols))
           (enumerate (cards m));
     count_label := PyStr.of_int (get_card_count m) +:+ " cards" |}.

End Csv.

(** ** [managers/card_manager.py] *)

Module Card.

Inductive CardType : Type := UNKNOWN | SJS1 | SJA2 | SJA5.

Record CardManager : Type := mkCardManager {
  cli_path : option string;
  card_type : CardType;
  authenticated : bool;
  card_info : pydict
}.

(** [CardManager()], given what [_find_cli_tool()] found. *)
Definition init (found : option string) : CardManager :=
  {| cli_path := found; card_type := UNKNOWN; authenticated := false;
     card_info := [] |}.

(** One call of [subprocess.run]. *)
Record spawn : Type := mkSpawn {
  cmd : list string;
  timeout : Z;
  cwd : string
}.

(** How [subprocess.run] ends: the process completes with an exit status
    and its two captured streams, the timeout expires, or the launch
    raises. *)
Inductive run_outcome : Type :=
| Completed (returncode : Z) (stdout stderr : string)
| TimeoutExpired
| FileNotFoundError
| OtherException (text : string).

(** The world the manager runs in: what each spawn does. *)
Definition subprocess := spawn -> run_outcome.

Fixpoint endswith_char (ch : ascii) (s : string) : bool :=
  match s with
  | EmptyString => false
  | String c EmptyString => if ascii_dec c ch then true else false
  | String _ s' => endswith_char ch s'
  end.

(** [os.path.join(a, b)] on POSIX. *)
Definition path_join (a b : string) : string :=
  if PyStr.startswith_char "/" b then b
  else if negb (PyStr.truthy a) || endswith_char "/" a then a +:+ b
  else a +:+ "/" +:+ b.

Definition not_found_message : string :=
  "sysmo-usim-tool not found. Set SYSMO_USIM_TOOL_PATH or place it next to SimGUI.".

(** [_run_cli]: the pair it returns and the processes it spawned. *)
Definition _run_cli (world : subprocess) (script : string)
    (args : list string) (timeout : Z) (m : CardManager)
    : (bool * string) * list spawn :=
  match cli_path m with
  | None => ((false, not_found_message), [])
  | Some root =>
      let call := {| cmd := ["python3"; path_join root script] ++ args;
                     timeout := timeout; cwd := root |} in
      (match world call with
       | Completed returncode stdout stderr =>
           (returncode =? 0, PyStr.strip (stdout +:+ stderr))
       | TimeoutExpired => (false, "Command timed out")
       | FileNotFoundError => (false, "Script not found: " +:+ script)
       | OtherException text => (false, text)
       end, [call])
  end.

(** The operations return their result, the manager afterwards and the
    processes spawned on the way. *)
Definition detect_card (world : subprocess) (m : CardManager)
    : (bool * string) * CardManager * list spawn :=
  let m := {| cli_path := cli_path m; card_type := UNKNOWN;
              authenticated := false; card_info := [] |} in
  let '((ok, out), calls) := _run_cli world "sysmo_isim_sja2.py" ["--help"] 30 m in
  if negb ok then ((false, out), m, calls)
  else ((true, "Card reader available (use Authenticate to connect)"), m, calls).

(** [self.authenticated = True] *)
Definition authenticated_session (m : CardManager) : CardManager :=
  {| cli_path := cli_path m; card_type := card_type m;
     authenticated := true; card_info := card_info m |}.

Definition authenticate (adm1 : string) (force : bool) (m : CardManager)
    : (bool * string) * CardManager * list spawn :=
  if negb (PyStr.truthy adm1) || negb (PyStr.len adm1 =? 8) then
    ((false, "ADM1 must be exactly 8 characters"), m, [])
  else
    ((true, "Authentication successful"), authenticated_session m, []).

Definition read_card_data (m : CardManager) : option pydict :=
  if negb (authenticated m) then None
  else match card_info m with
       | [] => None
       | info => Some info
       end.

Definition program_card (card_data : pydict) (m : CardManager)
    : bool * string :=
  if negb (authenticated m) then (false, "Not authenticated")
  else (true, "Card programmed successfully (stub)").

Definition verify_card (expected : pydict) (m : CardManager)
    : bool * list string :=
  if negb (authenticated m) then (false, ["Not authenticated"])
  else (true, []).

Definition get_remaining_attempts (m : CardManager) : option Z := Some 3.

Definition disconnect (m : CardManager) : CardManager :=
  {| cli_path := cli_path m; card_type := UNKNOWN; authenticated := false;
     card_info := [] |}.

(** *** Locating the tool *)

(** What [_find_cli_tool] and [set_cli_path] ask of the system: the value
    of [SYSMO_USIM_TOOL_PATH], [os.path.isdir], the directory of the module
    ([os.path.dirname(__file__)]), [os.path.expanduser] and
    [os.path.abspath]. *)
Record filesystem : Type := mkFilesystem {
  environ_tool_path : option string;
  isdir : string -> bool;
  module_dir : string;
  expanduser : string -> string;
  abspath : string -> string
}.

(** The conventional places, in the order they are tried. *)
Definition candidates (fs : filesystem) : list string :=
  [ path_join (path_join (path_join (module_dir fs) "..") "..")
              "sysmo-usim-tool";
    expanduser fs "~/sysmo-usim-tool";
    "/opt/sysmo-usim-tool" ].

Fixpoint first_dir (fs : filesystem) (l : list string) : option string :=
  match l with
  | [] => None
  | candidate :: l' =>
      if isdir fs candidate then Some (abspath fs candidate)
      else first_dir fs l'
  end.

Definition _find_cli_tool (fs : filesystem) : option string :=
  match environ_tool_path fs with
  | Some env_path =>
      if PyStr.truthy env_path && isdir fs env_path then Some env_path
      else first_dir fs (candidates fs)
  | None => first_dir fs (candidates fs)
  end.

Definition set_cli_path (fs : filesystem) (path : string) (m : CardManager)
    : bool * CardManager :=
  if isdir fs path then
    (true, {| cli_path := Some path; card_type := card_type m;
              authenticated := authenticated m; card_info := card_info m |})
  else (false, m).

(** *** Sequences of calls on a card manager *)

Inductive action : Type :=
| Detect
| Authenticate (adm1 : string) (force : bool)
| Disconnect
| SetCliPath (path : string).

Definition act (fs : filesystem) (world : subprocess) (a : action)
    (m : CardManager) : CardManager :=
  match a with
  | Detect => snd (fst (detect_card world m))
  | Authenticate adm1 force => snd (fst (authenticate adm1 force m))
  | Disconnect => disconnect m
  | SetCliPath path => snd (set_cli_path fs path m)
  end.

Definition run (fs : filesystem) (world : subprocess) (acts : list action)
    (m : CardManager) : CardManager :=
  fold_left (fun m a => act fs world a m) acts m.

(** The probe [detect_card] spawns under the tool root [root]. *)
Definition probe (root : string) : spawn :=
  {| cmd := ["python3"; path_join root "sysmo_isim_sja2.py"; "--help"];
     timeout := 30; cwd := root |}.

End Card.

(** ** [dialogs/adm1_dialog.py] *)

Module Adm1.

Record ADM1Dialog : Type := mkADM1Dialog {
  remaining_attempts : Z;
  adm1_value : option string;
  force_auth : bool;
  adm1_entry : string;
  destroyed : bool
}.

(** [ADM1Dialog(parent, remaining_attempts)] *)
Definition init (remaining_attempts : Z) : ADM1Dialog :=
  {| remaining_attempts := remaining_attempts; adm1_value := None;
     force_auth := false; adm1_entry := ""; destroyed := false |}.

(** [_create_widgets] shows the warning banner and the force checkbox
    under the same test. *)
Definition has_warning_banner (d : ADM1Dialog) : bool :=
  remaining_attempts d <? 3.

Definition has_force_checkbox (d : ADM1Dialog) : bool :=
  remaining_attempts d <? 3.

(** The message boxes a handler opens. *)
Inductive message_box : Type :=
| ShowError (title message : string)
| AskYesNo (title message : string).

Definition nl : string := String (ascii_of_nat 10) EmptyString.

Definition confirm_message (remaining : Z) : string :=
  "You have only " +:+ PyStr.of_int remaining +:+ " attempts remaining."
  +:+ nl +:+ nl +:+ "Are you SURE this ADM1 key is correct?"
  +:+ nl +:+ nl +:+ "Wrong key will lock your card!".

(** [_on_ok]: [answer] is what the user replies should the confirmation
    box be opened.  Returns the dialog afterwards and the boxes opened. *)
(** [self.adm1_value = value; self.destroy()] *)
Definition accept (value : string) (d : ADM1Dialog) : ADM1Dialog :=
  {| remaining_attempts := remaining_attempts d;
     adm1_value := Some value; force_auth := force_auth d;
     adm1_entry := adm1_entry d; destroyed := true |}.

Definition _on_ok (answer : bool) (d : ADM1Dialog)
    : ADM1Dialog * list message_box :=
  let value := adm1_entry d in
  if negb (PyStr.len value =? 8) || negb (PyStr.isdigit value) then
    (d, [ShowError "Invalid Input" "ADM1 key must be exactly 8 digits"])
  else
    if (remaining_attempts d <? 3) && negb (force_auth d) then
      let box := AskYesNo "Confirm" (confirm_message (remaining_attempts d)) in
      if negb answer then (d, [box]) else (accept value d, [box])
    else (accept value d, []).

Definition _on_cancel (d : ADM1Dialog) : ADM1Dialog :=
  {| remaining_attempts := remaining_attempts d; adm1_value := None;
     force_auth := force_auth d; adm1_entry := adm1_entry d;
     destroyed := true |}.

(** The three outcomes the attempt guard of the specification names. *)
Inductive decision : Type := Allowed | RequiresConfirmation | Blocked.

(** What [_on_ok] does with a well-formed key, as a decision: it asks for
    confirmation under the test [remaining_attempts < 3 and not force] and
    otherwise accepts the key at once. *)
Definition mayAttempt (remainingAttempts : Z) (forceFlag : bool) : decision :=
  if (remainingAttempts <? 3) && negb forceFlag then RequiresConfirmation
  else Allowed.

(** The entry holds a key [_on_ok] lets through its format test. *)
Definition well_formed_key (d : ADM1Dialog) : Prop :=
  PyStr.len (adm1_entry d) = 8 /\ PyStr.isdigit (adm1_entry d) = true.

(** *** The format hint under the entry *)

Inductive button_state : Type := NORMAL | DISABLED.

(** What [_validate_input] configures: the text and the colour of the
    validation label and the state of the Authenticate button. *)
Record validation : Type := mkValidation {
  label_text : string;
  label_foreground : string;
  ok_button : button_state
}.

Definition _validate_input (d : ADM1Dialog) : validation :=
  let value := adm1_entry d in
  if PyStr.len value =? 0 then
    {| label_text := "8 digits required"; label_foreground := "gray";
       ok_button := DISABLED |}
  else if negb (PyStr.isdigit value) then
    {| label_text := "Only digits allowed"; label_foreground := "red";
       ok_button := DISABLED |}
  else if PyStr.len value <? 8 then
    {| label_text := PyStr.of_int (8 - PyStr.len value)
                     +:+ " more digits needed";
       label_foreground := "orange"; ok_button := DISABLED |}
  else if PyStr.len value =? 8 then
    {| label_text := "Valid format"; label_foreground := "green";
       ok_button := NORMAL |}
  else
    {| label_text := "Too many digits"; label_foreground := "red";
       ok_button := DISABLED |}.

(** [get_adm1], once the window is closed. *)
Definition get_adm1 (d : ADM1Dialog) : option string * bool :=
  (adm1_value d, force_auth d).

(** *** What the user does with the dialog *)

(** The user edits the entry, ticks the force checkbox, asks for
    authentication (the button or the Return key; [answer] is the reply to
    the confirmation box should it open), cancels, or closes the window
    from the title bar. *)
Inductive event : Type :=
| Edit (text : string)
| ToggleForce
| Ok (answer : bool)
| Cancel
| CloseWindow.

(** The handler an event reaches.  A destroyed window receives nothing,
    and the checkbox exists only when [_create_widgets] has made it. *)
Definition handle (e : event) (d : ADM1Dialog)
    : ADM1Dialog * list message_box :=
  if destroyed d then (d, [])
  else
    match e with
    | Edit text =>
        ({| remaining_attempts := remaining_attempts d;
            adm1_value := adm1_value d; force_auth := force_auth d;
            adm1_entry := text; destroyed := destroyed d |}, [])
    | ToggleForce =>
        if has_force_checkbox d then
          ({| remaining_attempts := remaining_attempts d;
              adm1_value := adm1_value d;
              force_auth := negb (force_auth d);
              adm1_entry := adm1_entry d; destroyed := destroyed d |}, [])
        else (d, [])
    | Ok answer => _on_ok answer d
    | Cancel => (_on_cancel d, [])
    | CloseWindow =>
        ({| remaining_attempts := remaining_attempts d;
            adm1_value := adm1_value d; force_auth := force_auth d;
            adm1_entry := adm1_entry d; destroyed := true |}, [])
    end.

(** A session of events: the dialog at the end and every box opened. *)
Fixpoint session (events : list event) (d : ADM1Dialog)
    : ADM1Dialog * list message_box :=
  match events with
  | [] => (d, [])
  | e :: events' =>
      let '(d1, boxes1) := handle e d in
      let '(d2, boxes2) := session events' d1 in
      (d2, boxes1 ++ boxes2)
  end.

Definition is_confirmation (b : message_box) : bool :=
  match b with AskYesNo _ _ => true | ShowError _ _ => false end.

(** What holds of a dialog opened with [r] remaining attempts and of the
    boxes opened so far, whatever the user has done. *)
Definition dialog_invariant (r : Z) (d : ADM1Dialog)
    (boxes : list message_box) : Prop :=
  remaining_attempts d = r
  /\ (destroyed d = false -> adm1_value d = None)
  /\ (forall v, adm1_value d = Some v ->
        PyStr.len v = 8 /\ PyStr.isdigit v = true
        /\ (r < 3 -> force_auth d = true
                     \/ In (AskYesNo "Confirm" (confirm_message r)) boxes))
  /\ (3 <= r -> force_auth d = false
                /\ forall b, In b boxes -> is_confirmation b = false).

(** *** Pasting into the entry *)

(** [ch.isprintable()] on U+0000..U+00FF: everything but the control
    characters, the no-break space U+00A0 and the soft hyphen U+00AD. *)
Definition isprintable_char (c : ascii) : bool :=
  PyStr.in_range 32 126 c || PyStr.in_range 161 172 c
  || PyStr.in_range 174 255 c.

(** [''.join(ch for ch in text if keep(ch))] *)
Fixpoint keep_chars (keep : ascii -> bool) (text : string) : string :=
  match text with
  | EmptyString => EmptyString
  | String ch text' =>
      if keep ch then String ch (keep_chars keep text')
      else keep_chars keep text'
  end.

Fixpoint take_chars (n : nat) (s : string) : string :=
  match n, s with
  | S n', String c s' => String c (take_chars n' s')
  | _, _ => EmptyString
  end.

Fixpoint drop_chars (n : nat) (s : string) : string :=
  match n, s with
  | S n', String _ s' => drop_chars n' s'
  | _, _ => s
  end.

(** A Tk entry: its text, the insertion cursor (the index [INSERT]) and
    the selected range from [SEL_FIRST] up to [SEL_LAST], if any. *)
Record entry_widget : Type := mkEntry {
  content : string;
  insert_pos : nat;
  selection : option (nat * nat)
}.

(** Where an index of the entry lands once the characters from [first]
    up to [last] are deleted. *)
Definition index_after_delete (first last x : nat) : nat :=
  if (x <=? first)%nat then x
  else if (last <=? x)%nat then (x - (last - first))%nat
  else first.

(** [widget.delete(first, last)]: the characters from [first] up to
    [last] go; the cursor and the ends of the selection move back with the
    text before them, and a selection left empty is no selection. *)
Definition entry_delete (first last : nat) (w : entry_widget) : entry_widget :=
  if (first <? last)%nat then
    {| content := take_chars first (content w) +:+ drop_chars last (content w);
       insert_pos := index_after_delete first last (insert_pos w);
       selection :=
         match selection w with
         | Some (sel_first, sel_last) =>
             let sel_first := index_after_delete first last sel_first in
             let sel_last := index_after_delete first last sel_last in
             if (sel_last <=? sel_first)%nat then None
             else Some (sel_first, sel_last)
         | None => None
         end |}
  else w.

(** [widget.insert(INSERT, text)]: the text goes in at the cursor, which
    ends up behind it; a selection behind the cursor moves on with its
    text. *)
Definition entry_insert (text : string) (w : entry_widget) : entry_widget :=
  let index := insert_pos w in
  let added := String.length text in
  {| content := take_chars index (content w) +:+ text
                +:+ drop_chars index (content w);
     insert_pos := (index + added)%nat;
     selection :=
       match selection w with
       | Some (sel_first, sel_last) =>
           Some (if (index <=? sel_first)%nat then (sel_first + added)%nat
                 else sel_first,
                 if (index <? sel_last)%nat then (sel_last + added)%nat
                 else sel_last)
       | None => None
       end |}.

(** The dialog once its entry holds [text]. *)
Definition with_entry (text : string) (d : ADM1Dialog) : ADM1Dialog :=
  {| remaining_attempts := remaining_attempts d; adm1_value := adm1_value d;
     force_auth := force_auth d; adm1_entry := text;
     destroyed := destroyed d |}.

(** [_paste_sanitized], the handler [_setup_clipboard] binds to the Tk
    class [Entry].  The widgets of that class are the classic [tk.Entry]
    widgets of the application; the entry of the dialog is a [ttk.Entry],
    of class [TEntry], so the event never comes from it.  [w] is the
    widget of the event, in its normal state, and [d] the dialog the
    handler belongs to; [clipboard] is what [clipboard_get] delivers,
    [None] when it raises [TclError].  The handler edits [w] and then
    calls [self._validate_input()], which reads the entry of the dialog,
    not [w]; once the dialog is destroyed that read raises [TclError],
    which the handler swallows.  Returns the widget afterwards, what
    [_validate_input] has configured if it ran, and what the handler
    returns ('break', or [None] after an error). *)
Definition _paste_sanitized (clipboard : option string) (w : entry_widget)
    (d : ADM1Dialog)
    : entry_widget * option validation * option string :=
  match clipboard with
  | None => (w, None, None)
  | Some text =>
      let text := keep_chars isprintable_char text in
      let w := match selection w with
               | Some (sel_first, sel_last) =>
                   entry_delete sel_first sel_last w
               | None => w
               end in
      let w := entry_insert text w in
      if destroyed d then (w, None, None)
      else (w, Some (_validate_input d), Some "break")
  end.



End Adm1.

(** * Properties *)

(** ** The character classes of the program and the written-out ones *)

Module PlainProps.

Lemma length_chars (s : string) :
  length (Plain.chars s) = String.length s.
Proof.
  induction s as [|c s IH]; cbn; [reflexivity|]. now rewrite <- IH.
Qed.

Lemma chars_inj (s1 s2 : string) :
  Plain.chars s1 = Plain.chars s2 -> s1 = s2.
Proof.
  intros H. rewrite <- (string_of_list_ascii_of_string s1).
  rewrite <- (string_of_list_ascii_of_string s2).
  unfold Plain.chars in H. now rewrite H.
Qed.

Lemma all_chars_Forall (p : ascii -> bool) (s : string) :
  PyStr.all_chars p s = true
  <-> Forall (fun c => p c = true) (Plain.chars s).
Proof.
  induction s as [|c s IH]; cbn.
  - split; [constructor | reflexivity].
  - rewrite andb_true_iff, IH. split.
    + intros [H1 H2]. now constructor.
    + intros H. inversion H; subst. auto.
Qed.

Lemma listed_class (p : ascii -> bool) (class : list ascii) :
  (forall c, p c = existsb (Ascii.eqb c) class) ->
  forall c, p c = true <-> In c class.
Proof.
  intros H c. rewrite H, existsb_exists. split.
  - intros (x & Hx & E). apply Ascii.eqb_eq in E. now subst.
  - intros Hc. exists c. split; [exact Hc | apply Ascii.eqb_refl].
Qed.

Lemma isdigit_char_listed (c : ascii) :
  PyStr.isdigit_char c = true <-> In c Plain.python_digits.
Proof.
  apply listed_class. clear c. intros c.
  destruct c as [[] [] [] [] [] [] [] []]; vm_compute; reflexivity.
Qed.

Lemma Forall_iff_pointwise {A : Type} (P Q : A -> Prop) (l : list A) :
  (forall x, P x <-> Q x) -> Forall P l <-> Forall Q l.
Proof.
  intros H. induction l as [|x l IH].
  - split; constructor.
  - split; intros Hl; inversion Hl; subst; constructor;
      try (now apply H); now apply IH.
Qed.

Lemma isdigit_made_of (s : string) :
  PyStr.isdigit s = true
  <-> s <> "" /\ Plain.made_of Plain.python_digits s.
Proof.
  unfold PyStr.isdigit, Plain.made_of.
  rewrite andb_true_iff, all_chars_Forall.
  rewrite (Forall_iff_pointwise _ _ _ isdigit_char_listed).
  destruct s as [|c s]; cbn [PyStr.truthy].
  - split; [intros [H _]; discriminate H | intros [H _]; now contradiction H].
  - split; intros [_ H]; (split; [|exact H]); [discriminate | reflexivity].
Qed.

Lemma isdigit_digits_of_length (n : nat) (s : string) :
  n <> 0%nat ->
  PyStr.len s = Z.of_nat n /\ PyStr.isdigit s = true
  <-> Plain.digits_of_length n s.
Proof.
  intros Hn. unfold Plain.digits_of_length, PyStr.len.
  rewrite isdigit_made_of. split.
  - intros (Hlen & _ & Hd). split; [lia | exact Hd].
  - intros (Hlen & Hd). split; [lia|]. split; [|exact Hd].
    intros ->. cbn in Hlen. congruence.
Qed.

Lemma char_in_listed (c : ascii) (lit : string) :
  PyStr.char_in c lit = true <-> In c (Plain.chars lit).
Proof.
  induction lit as [|d lit IH]; cbn.
  - split; [discriminate | tauto].
  - destruct (ascii_dec c d) as [->|Hne].
    + split; auto.
    + rewrite IH. split; [auto|]. intros [E|H]; [congruence | exact H].
Qed.

Lemma chars_remove_space (s : string) :
  Plain.chars (PyStr.remove_char " " s) = Plain.without_spaces s.
Proof.
  unfold Plain.without_spaces, Plain.chars.
  induction s as [|c s IH]; [reflexivity|].
  cbn [PyStr.remove_char list_ascii_of_string List.filter].
  destruct (ascii_dec c " ") as [->|Hne].
  - rewrite Ascii.eqb_refl. exact IH.
  - apply Ascii.eqb_neq in Hne. rewrite Hne.
    cbn [negb list_ascii_of_string]. now rewrite IH.
Qed.

End PlainProps.

(** ** The card session *)

Module CardProps.
Import Card.

Lemma len_eqb (s : string) (n : nat) :
  (PyStr.len s =? Z.of_nat n) = true <-> String.length s = n.
Proof. unfold PyStr.len. rewrite Z.eqb_eq. lia. Qed.

(** C6: a key whose length is not 8 (the empty key included) is refused
    with the message for an invalid ADM1, no process is spawned and the
    session is left exactly as it was, so it does not become
    authenticated. *)
Theorem authenticate_rejects_wrong_length
    (adm1 : string) (force : bool) (m : CardManager) :
  String.length adm1 <> 8%nat ->
  authenticate adm1 force m
    = ((false, "ADM1 must be exactly 8 characters"), m, [])
  /\ authenticated (snd (fst (authenticate adm1 force m))) = authenticated m.
Proof.
  intros Hlen. unfold authenticate.
  destruct (PyStr.len adm1 =? 8) eqn:E.
  - apply (len_eqb adm1 8) in E. contradiction.
  - rewrite orb_true_r. simpl. auto.
Qed.

Lemma authenticate_rejects_wrong_length_witness :
  authenticate "1234" false (init None)
    = ((false, "ADM1 must be exactly 8 characters"), init None, [])
  /\ authenticated (snd (fst (authenticate "1234" false (init None)))) = false.
Proof.
  apply (authenticate_rejects_wrong_length "1234" false (init None)).
  simpl. lia.
Defined.

(** C8, as the code has it: the cached mapping is returned when the session
    is authenticated and the mapping is not empty; an authenticated session
    with an empty mapping and a session that is not authenticated both get
    [None]. *)
Theorem read_card_data_cases (m : CardManager) :
  (authenticated m = true -> card_info m <> [] ->
     read_card_data m = Some (card_info m))
  /\ (authenticated m = true -> card_info m = [] -> read_card_data m = None)
  /\ (authenticated m = false -> read_card_data m = None).
Proof.
  unfold read_card_data. repeat split.
  - intros -> Hne. simpl.
    destruct (card_info m); [exfalso; apply Hne; reflexivity | reflexivity].
  - intros -> ->. reflexivity.
  - intros ->. reflexivity.
Qed.

Lemma read_card_data_cases_witness :
  read_card_data
    {| cli_path := None; card_type := SJA2; authenticated := true;
       card_info := [("imsi", PyStr "001010000000001")] |}
  = Some [("imsi", PyStr "001010000000001")]
  /\ read_card_data (authenticated_session (init None)) = None
  /\ read_card_data (init None) = None.
Proof.
  split; [|split].
  - apply (proj1 (read_card_data_cases
             {| cli_path := None; card_type := SJA2; authenticated := true;
                card_info := [("imsi", PyStr "001010000000001")] |}));
      [reflexivity | discriminate].
  - apply (proj1 (proj2 (read_card_data_cases
                           (authenticated_session (init None)))));
      reflexivity.
  - apply (proj2 (proj2 (read_card_data_cases (init None)))); reflexivity.
Defined.

(** C8, as the specification has it, fails: after detection and a
    successful authentication the cached mapping is the empty one and
    [read_card_data] answers [None], not that mapping. *)
Lemma read_card_data_counterexample :
  let world := fun _ => Completed 0 "usage" "" in
  let m0 := snd (fst (detect_card world (init (Some "/opt/sysmo-usim-tool")))) in
  let m := snd (fst (authenticate "12345678" false m0)) in
  authenticated m = true
  /\ read_card_data m = None
  /\ read_card_data m <> Some (card_info m).
Proof. simpl. repeat split. discriminate. Qed.

(** C5: with a tool root, exactly one process is spawned; the success flag
    is true precisely when it completes with exit status 0; a completed
    process yields its two streams joined and stripped; an expired timeout
    yields failure with the text "Command timed out"; a launch error yields
    failure with the text of the error. *)
Theorem run_cli_classification
    (world : subprocess) (script : string) (args : list string)
    (timeout : Z) (m : CardManager) (root : string) :
  cli_path m = Some root ->
  let call := {| cmd := ["python3"; path_join root script] ++ args;
                 timeout := timeout; cwd := root |} in
  let result := fst (_run_cli world script args timeout m) in
  snd (_run_cli world script args timeout m) = [call]
  /\ (fst result = true <-> exists out err, world call = Completed 0 out err)
  /\ (forall rc out err, world call = Completed rc out err ->
        snd result = PyStr.strip (out +:+ err))
  /\ (world call = TimeoutExpired -> result = (false, "Command timed out"))
  /\ (world call = FileNotFoundError ->
        result = (false, "Script not found: " +:+ script))
  /\ (forall text, world call = OtherException text -> result = (false, text)).
Proof.
  intros Hroot call result. subst result. unfold _run_cli. rewrite Hroot.
  fold call. simpl fst. simpl snd. split; [reflexivity|].
  destruct (world call) as [rc out err| | |text] eqn:E; simpl.
  - split.
    + rewrite Z.eqb_eq. split.
      * intros ->. eauto.
      * intros (o & e & H). congruence.
    + repeat split; try discriminate. intros ? ? ? H. congruence.
  - split.
    + split; [discriminate | intros (o & e & H); discriminate].
    + repeat split; discriminate.
  - split.
    + split; [discriminate | intros (o & e & H); discriminate].
    + repeat split; discriminate.
  - split.
    + split; [discriminate | intros (o & e & H); discriminate].
    + repeat split; try discriminate. intros ? H. congruence.
Qed.

Lemma run_cli_classification_witness :
  let m := init (Some "/opt/sysmo-usim-tool") in
  let world := fun _ : spawn => TimeoutExpired in
  fst (_run_cli world "sysmo_isim_sja2.py" ["--help"] 30 m)
  = (false, "Command timed out").
Proof.
  intros m world.
  apply (proj1 (proj2 (proj2 (proj2
           (run_cli_classification world "sysmo_isim_sja2.py" ["--help"] 30 m
              "/opt/sysmo-usim-tool" eq_refl))))).
  reflexivity.
Defined.

(** *** Further properties of the card manager *)

Lemma record_eta (m : CardManager) :
  {| cli_path := cli_path m; card_type := card_type m;
     authenticated := authenticated m; card_info := card_info m |} = m.
Proof. destruct m; reflexivity. Qed.

Lemma detect_card_unfold (world : subprocess) (m : CardManager) :
  detect_card world m =
    match cli_path m with
    | None => ((false, not_found_message), init None, [])
    | Some root =>
        (match world (probe root) with
         | Completed rc out err =>
             if rc =? 0
             then (true, "Card reader available (use Authenticate to connect)")
             else (false, PyStr.strip (out +:+ err))
         | TimeoutExpired => (false, "Command timed out")
         | FileNotFoundError =>
             (false, "Script not found: sysmo_isim_sja2.py")
         | OtherException text => (false, text)
         end, init (Some root), [probe root])
    end.
Proof.
  unfold detect_card, _run_cli, probe, init. cbn [cli_path].
  destruct (cli_path m) as [root|]; [|reflexivity].
  cbn [app].
  destruct (world _) as [rc out err| | |text]; try reflexivity.
  destruct (rc =? 0); reflexivity.
Qed.

Lemma detect_card_state (world : subprocess) (m : CardManager) :
  snd (fst (detect_card world m)) = init (cli_path m).
Proof.
  rewrite detect_card_unfold. now destruct (cli_path m).
Qed.

(** X1: whatever the probe does, [detect_card] leaves the session as a
    fresh one with the same tool root (not authenticated, no card data,
    unknown card type).  Without a tool root it fails with the guidance
    message and spawns nothing; with one it spawns exactly the probe and
    succeeds precisely when the probe completes with exit status 0. *)
Theorem detect_card_resets_and_probes (world : subprocess) (m : CardManager) :
  snd (fst (detect_card world m)) = init (cli_path m)
  /\ (cli_path m = None ->
        fst (fst (detect_card world m)) = (false, not_found_message)
        /\ snd (detect_card world m) = [])
  /\ (forall root, cli_path m = Some root ->
        snd (detect_card world m) = [probe root]
        /\ (fst (fst (fst (detect_card world m))) = true
            <-> exists out err, world (probe root) = Completed 0 out err)).
Proof.
  rewrite detect_card_unfold.
  destruct (cli_path m) as [root|] eqn:Hroot; cbn [fst snd].
  - split; [reflexivity|]. split; [discriminate|].
    intros r [= <-]. split; [reflexivity|].
    destruct (world (probe root)) as [rc out err| | |text] eqn:E;
      cbn [fst].
    + destruct (rc =? 0) eqn:Erc; cbn [fst].
      * apply Z.eqb_eq in Erc. subst rc. split; [eauto | reflexivity].
      * apply Z.eqb_neq in Erc.
        split; [discriminate | intros (o & e & [= H _ _]); contradiction].
    + split; [discriminate | intros (o & e & H); discriminate].
    + split; [discriminate | intros (o & e & H); discriminate].
    + split; [discriminate | intros (o & e & H); discriminate].
  - split; [reflexivity|]. split; [auto | discriminate].
Qed.

Lemma detect_card_resets_and_probes_witness :
  let world := fun _ : spawn => Completed 2 "" "No reader" in
  fst (fst (detect_card world (init None))) = (false, not_found_message)
  /\ snd (detect_card world (init None)) = [].
Proof.
  intros world.
  apply (proj1 (proj2 (detect_card_resets_and_probes world (init None)))).
  reflexivity.
Defined.

(** X2: [authenticate] succeeds exactly on the keys of 8 characters, gives
    the same result whatever the force flag, spawns no process and never
    touches the tool root, the card type or the cached card data. *)
Theorem authenticate_frame (adm1 : string) (force : bool) (m : CardManager) :
  (fst (fst (fst (authenticate adm1 force m))) = true
     <-> String.length adm1 = 8%nat)
  /\ authenticate adm1 force m = authenticate adm1 (negb force) m
  /\ snd (authenticate adm1 force m) = []
  /\ cli_path (snd (fst (authenticate adm1 force m))) = cli_path m
  /\ card_type (snd (fst (authenticate adm1 force m))) = card_type m
  /\ card_info (snd (fst (authenticate adm1 force m))) = card_info m.
Proof.
  unfold authenticate.
  destruct (PyStr.len adm1 =? 8) eqn:E.
  - pose proof (proj1 (len_eqb adm1 8) E) as Hlen.
    assert (Ht : PyStr.truthy adm1 = true)
      by (destruct adm1; [discriminate | reflexivity]).
    rewrite Ht. cbn. repeat apply conj; try reflexivity; auto.
  - rewrite orb_true_r. cbn. repeat apply conj; try reflexivity.
    + discriminate.
    + intros H. apply (len_eqb adm1 8) in H.
      change (Z.of_nat 8) with 8 in H. congruence.
Qed.

(** X3: [disconnect] returns the session to the fresh one with the same
    tool root, and doing it twice changes nothing more; a session that is
    not authenticated (after [disconnect] or [detect_card] in particular)
    is refused by [read_card_data], [program_card] and [verify_card]. *)
Theorem disconnect_resets (world : subprocess) (m : CardManager)
    (card_data expected : pydict) :
  disconnect m = init (cli_path m)
  /\ disconnect (disconnect m) = disconnect m
  /\ (forall m', m' = disconnect m \/ m' = snd (fst (detect_card world m)) ->
        read_card_data m' = None
        /\ program_card card_data m' = (false, "Not authenticated")
        /\ verify_card expected m' = (false, ["Not authenticated"])).
Proof.
  split; [reflexivity|]. split; [reflexivity|].
  intros m' [-> | ->].
  - repeat split.
  - rewrite detect_card_state. repeat split.
Qed.

Lemma disconnect_resets_witness :
  read_card_data (disconnect (authenticated_session (init None))) = None
  /\ program_card [("IMSI", PyStr "001010000000001")]
       (disconnect (authenticated_session (init None)))
     = (false, "Not authenticated")
  /\ verify_card [] (disconnect (authenticated_session (init None)))
     = (false, ["Not authenticated"]).
Proof.
  apply (proj2 (proj2 (disconnect_resets (fun _ => TimeoutExpired)
                         (authenticated_session (init None))
                         [("IMSI", PyStr "001010000000001")] []))).
  left. reflexivity.
Defined.

(** X4: from a new manager, whatever the calls to [detect_card],
    [authenticate], [disconnect] and [set_cli_path] and whatever the tool
    does, the cached card data stays empty and the card type unknown, so
    [read_card_data] answers [None] in every state the manager reaches. *)
Theorem read_card_data_never_returns_data
    (fs : filesystem) (world : subprocess) (acts : list action) :
  card_info (run fs world acts (init (_find_cli_tool fs))) = []
  /\ card_type (run fs world acts (init (_find_cli_tool fs))) = UNKNOWN
  /\ read_card_data (run fs world acts (init (_find_cli_tool fs))) = None.
Proof.
  assert (Hinv : forall m, card_info m = [] /\ card_type m = UNKNOWN ->
            card_info (run fs world acts m) = []
            /\ card_type (run fs world acts m) = UNKNOWN).
  { unfold run. induction acts as [|a acts IH]; intros m Hm; [exact Hm|].
    cbn [fold_left]. apply IH. destruct Hm as [Hi Ht].
    destruct a as [|adm1 force| |path]; cbn [act].
    - rewrite detect_card_state. auto.
    - unfold authenticate.
      destruct (negb (PyStr.truthy adm1) || negb (PyStr.len adm1 =? 8));
        auto.
    - auto.
    - unfold set_cli_path. destruct (isdir fs path); auto. }
  destruct (Hinv (init (_find_cli_tool fs))) as [Hi Ht]; [auto|].
  repeat apply conj; [exact Hi | exact Ht |].
  unfold read_card_data. rewrite Hi.
  destruct (negb _); reflexivity.
Qed.

(** X5: [_find_cli_tool] prefers the environment: a value of
    [SYSMO_USIM_TOOL_PATH] that is not empty and names a directory is
    returned as it is.  Otherwise the answer is the absolute path of the
    first conventional place that is a directory, and [None] exactly when
    none of them is. *)
Theorem find_cli_tool_order (fs : filesystem) :
  (forall p, environ_tool_path fs = Some p -> p <> "" ->
     isdir fs p = true -> _find_cli_tool fs = Some p)
  /\ ((forall p, environ_tool_path fs = Some p ->
         p = "" \/ isdir fs p = false) ->
      (_find_cli_tool fs = None
         <-> forall c, In c (candidates fs) -> isdir fs c = false)
      /\ (forall r, _find_cli_tool fs = Some r ->
            exists before c after,
              candidates fs = before ++ c :: after
              /\ (forall b, In b before -> isdir fs b = false)
              /\ isdir fs c = true /\ r = abspath fs c)).
Proof.
  assert (Hfirst : forall l,
            (first_dir fs l = None
               <-> forall c, In c l -> isdir fs c = false)
            /\ (forall r, first_dir fs l = Some r ->
                  exists before c after,
                    l = before ++ c :: after
                    /\ (forall b, In b before -> isdir fs b = false)
                    /\ isdir fs c = true /\ r = abspath fs c)).
  { induction l as [|c l [IH1 IH2]]; cbn [first_dir].
    - split; [split; [intros _ c [] | reflexivity] | discriminate].
    - destruct (isdir fs c) eqn:E.
      + split.
        * split; [discriminate|]. intros H.
          specialize (H c (or_introl eq_refl)). congruence.
        * intros r [= <-]. exists [], c, l. cbn.
          repeat apply conj; try reflexivity; [intros b []| exact E].
      + split.
        * rewrite IH1. split.
          -- intros H x [<-|Hx]; [exact E | auto].
          -- intros H x Hx. apply H. right. exact Hx.
        * intros r Hr. destruct (IH2 r Hr) as (b & x & a & -> & Hb & Hx & ->).
          exists (c :: b), x, a. cbn.
          repeat apply conj; try reflexivity; [|exact Hx].
          intros y [<-|Hy]; [exact E | auto]. }
  unfold _find_cli_tool. split.
  - intros p -> Hp Hdir.
    assert (PyStr.truthy p = true) by (destruct p; [contradiction|reflexivity]).
    now rewrite H, Hdir.
  - intros Henv.
    assert (Heq : match environ_tool_path fs with
                  | Some env_path =>
                      if PyStr.truthy env_path && isdir fs env_path
                      then Some env_path else first_dir fs (candidates fs)
                  | None => first_dir fs (candidates fs)
                  end = first_dir fs (candidates fs)).
    { destruct (environ_tool_path fs) as [p|]; [|reflexivity].
      destruct (Henv p eq_refl) as [-> | H]; [reflexivity|].
      rewrite H, andb_false_r. reflexivity. }
    rewrite Heq. apply Hfirst.
Qed.

Lemma find_cli_tool_order_witness :
  _find_cli_tool
    {| environ_tool_path := Some "/srv/sysmo-usim-tool";
       isdir := fun p => String.eqb p "/srv/sysmo-usim-tool";
       module_dir := "/home/lab/SimGUI/managers";
       expanduser := fun p => p; abspath := fun p => p |}
  = Some "/srv/sysmo-usim-tool".
Proof.
  apply (proj1 (find_cli_tool_order
    {| environ_tool_path := Some "/srv/sysmo-usim-tool";
       isdir := fun p => String.eqb p "/srv/sysmo-usim-tool";
       module_dir := "/home/lab/SimGUI/managers";
       expanduser := fun p => p; abspath := fun p => p |}));
    [reflexivity | discriminate | reflexivity].
Defined.

(** X6: [set_cli_path] accepts exactly the directories.  A refused path
    leaves the manager as it was; an accepted one becomes the tool root,
    under which the next tool call is spawned, and the session keeps its
    authentication and card data. *)
Theorem set_cli_path_cases
    (fs : filesystem) (world : subprocess) (path : string) (m : CardManager) :
  (isdir fs path = false -> set_cli_path fs path m = (false, m))
  /\ (isdir fs path = true ->
        fst (set_cli_path fs path m) = true
        /\ cli_path (snd (set_cli_path fs path m)) = Some path
        /\ authenticated (snd (set_cli_path fs path m)) = authenticated m
        /\ card_info (snd (set_cli_path fs path m)) = card_info m
        /\ forall script args timeout,
             snd (_run_cli world script args timeout
                    (snd (set_cli_path fs path m)))
             = [ {| cmd := ["python3"; path_join path script] ++ args;
                    timeout := timeout; cwd := path |} ]).
Proof.
  unfold set_cli_path. split; intros ->; [reflexivity|].
  cbn. repeat apply conj; try reflexivity.
Qed.

Lemma set_cli_path_cases_witness :
  let fs := {| environ_tool_path := None;
               isdir := fun p => String.eqb p "/srv/tool";
               module_dir := "/app"; expanduser := fun p => p;
               abspath := fun p => p |} in
  set_cli_path fs "/nowhere" (init None) = (false, init None)
  /\ cli_path (snd (set_cli_path fs "/srv/tool" (init None)))
     = Some "/srv/tool".
Proof.
  intros fs. split.
  - apply (proj1 (set_cli_path_cases fs (fun _ => TimeoutExpired)
                    "/nowhere" (init None))).
    reflexivity.
  - apply (proj2 (set_cli_path_cases fs (fun _ => TimeoutExpired)
                    "/srv/tool" (init None))).
    reflexivity.
Defined.

End CardProps.

(** ** The ADM1 dialog *)

Module Adm1Props.
Import Adm1.

Lemma on_ok_well_formed (answer : bool) (d : ADM1Dialog) :
  well_formed_key d ->
  _on_ok answer d =
    if (remaining_attempts d <? 3) && negb (force_auth d) then
      (if answer then accept (adm1_entry d) d else d,
       [AskYesNo "Confirm" (confirm_message (remaining_attempts d))])
    else (accept (adm1_entry d) d, []).
Proof.
  intros [Hlen Hdig]. unfold _on_ok. rewrite Hlen, Hdig. simpl.
  destruct ((remaining_attempts d <? 3) && negb (force_auth d));
    [destruct answer|]; reflexivity.
Qed.

(** C2, as the code has it: three or more remaining attempts are allowed;
    fewer than three (zero and below included) require confirmation
    without the force flag and are allowed with it; no input is blocked.
    The dialog follows the decision: an allowed key is accepted with no
    box opened, one that requires confirmation opens the confirmation box
    and is accepted exactly when the user agrees. *)
Theorem attempt_guard_policy (remaining : Z) (force : bool) :
  (3 <= remaining -> mayAttempt remaining force = Allowed)
  /\ (remaining < 3 -> force = false ->
        mayAttempt remaining force = RequiresConfirmation)
  /\ (remaining < 3 -> force = true -> mayAttempt remaining force = Allowed)
  /\ mayAttempt remaining force <> Blocked
  /\ (forall (answer : bool) (d : ADM1Dialog),
        remaining_attempts d = remaining -> force_auth d = force ->
        well_formed_key d ->
        match mayAttempt remaining force with
        | Allowed => _on_ok answer d = (accept (adm1_entry d) d, [])
        | RequiresConfirmation =>
            _on_ok answer d =
              (if answer then accept (adm1_entry d) d else d,
               [AskYesNo "Confirm" (confirm_message remaining)])
        | Blocked => False
        end).
Proof.
  unfold mayAttempt. repeat apply conj.
  - intros H. apply Z.ltb_ge in H. rewrite H. reflexivity.
  - intros H ->. apply Z.ltb_lt in H. rewrite H. reflexivity.
  - intros H ->. rewrite andb_false_r. reflexivity.
  - destruct ((remaining <? 3) && negb force); discriminate.
  - intros answer d <- <- Hwf. rewrite (on_ok_well_formed answer d Hwf).
    destruct ((remaining_attempts d <? 3) && negb (force_auth d)); reflexivity.
Qed.

Lemma attempt_guard_policy_witness :
  mayAttempt 5 false = Allowed
  /\ mayAttempt 1 false = RequiresConfirmation
  /\ mayAttempt 1 true = Allowed.
Proof.
  split; [|split].
  - apply (proj1 (attempt_guard_policy 5 false)). lia.
  - apply (proj1 (proj2 (attempt_guard_policy 1 false))); [lia | reflexivity].
  - apply (proj1 (proj2 (proj2 (attempt_guard_policy 1 true))));
      [lia | reflexivity].
Defined.

(** C2, as the specification has it, fails: with no attempt left and the
    force flag set the decision is [Allowed], not [Blocked], and the dialog
    accepts the key without opening a box. *)
Lemma attempt_guard_zero_forced_counterexample :
  let d := {| remaining_attempts := 0; adm1_value := None;
              force_auth := true; adm1_entry := "12345678";
              destroyed := false |} in
  mayAttempt 0 true = Allowed
  /\ mayAttempt 0 true <> Blocked
  /\ _on_ok false d = (accept "12345678" d, [])
  /\ adm1_value (fst (_on_ok false d)) = Some "12345678".
Proof. simpl. repeat apply conj; try reflexivity. discriminate. Qed.

(** *** Further properties of the dialog *)

Lemma well_formed_dec (d : ADM1Dialog) :
  negb (PyStr.len (adm1_entry d) =? 8) || negb (PyStr.isdigit (adm1_entry d))
  = false <-> well_formed_key d.
Proof.
  unfold well_formed_key.
  rewrite orb_false_iff, !negb_false_iff, Z.eqb_eq. reflexivity.
Qed.

Lemma validate_input_normal (d : ADM1Dialog) :
  ok_button (_validate_input d) = NORMAL <-> well_formed_key d.
Proof.
  unfold _validate_input, well_formed_key.
  destruct (PyStr.len (adm1_entry d) =? 0) eqn:E0.
  { apply Z.eqb_eq in E0. cbn. split; [discriminate | lia]. }
  destruct (PyStr.isdigit (adm1_entry d)) eqn:Ed; cbn [negb].
  2:{ cbn. split; [discriminate | intros [_ H]; discriminate]. }
  destruct (PyStr.len (adm1_entry d) <? 8) eqn:E1.
  { apply Z.ltb_lt in E1. cbn. split; [discriminate | lia]. }
  destruct (PyStr.len (adm1_entry d) =? 8) eqn:E2; cbn.
  - apply Z.eqb_eq in E2. tauto.
  - apply Z.eqb_neq in E2. split; [discriminate | tauto].
Qed.

Lemma well_formed_plain (d : ADM1Dialog) :
  well_formed_key d <-> Plain.digits_of_length 8 (adm1_entry d).
Proof.
  unfold well_formed_key.
  apply (PlainProps.isdigit_digits_of_length 8 (adm1_entry d)).
  discriminate.
Qed.

(** X7: the Authenticate button is enabled by [_validate_input] exactly
    when the entry holds 8 characters that [str.isdigit] takes for digits
    (the digits 0 to 9 and the superscripts two, three and one), which is
    exactly when [_on_ok] does not answer with the "Invalid Input" box. *)
Theorem validate_input_agrees_with_on_ok (answer : bool) (d : ADM1Dialog) :
  (ok_button (_validate_input d) = NORMAL
   <-> Plain.digits_of_length 8 (adm1_entry d))
  /\ (ok_button (_validate_input d) = DISABLED
      <-> _on_ok answer d
          = (d, [ShowError "Invalid Input"
                           "ADM1 key must be exactly 8 digits"])).
Proof.
  pose proof (validate_input_normal d) as H1.
  split; [now rewrite <- well_formed_plain|].
  assert (H2 : ok_button (_validate_input d) = DISABLED
               <-> ~ well_formed_key d).
  { rewrite <- H1. destruct (ok_button (_validate_input d));
      split; congruence. }
  rewrite H2, <- well_formed_dec. unfold _on_ok.
  destruct (negb (PyStr.len (adm1_entry d) =? 8)
            || negb (PyStr.isdigit (adm1_entry d))).
  - split; [reflexivity | discriminate].
  - split; [congruence|].
    destruct ((remaining_attempts d <? 3) && negb (force_auth d));
      [destruct (negb answer)|]; discriminate.
Qed.

Lemma handle_invariant (r : Z) (e : event) (d : ADM1Dialog)
    (boxes : list message_box) :
  dialog_invariant r d boxes ->
  dialog_invariant r (fst (handle e d)) (boxes ++ snd (handle e d)).
Proof.
  intros (Hr & Hopen & Hval & Hbig). unfold handle.
  destruct (destroyed d) eqn:Hd.
  { cbn [fst snd]. rewrite app_nil_r. unfold dialog_invariant.
    rewrite Hd. intuition congruence. }
  specialize (Hopen eq_refl).
  destruct e as [text| |answer| |].
  - cbn [fst snd]. rewrite app_nil_r. unfold dialog_invariant. cbn.
    rewrite Hopen. intuition congruence.
  - unfold has_force_checkbox. destruct (remaining_attempts d <? 3) eqn:E;
      cbn [fst snd]; rewrite app_nil_r; unfold dialog_invariant; cbn.
    + apply Z.ltb_lt in E. rewrite Hopen.
      intuition (try congruence; try lia).
    + rewrite Hopen, Hd. intuition congruence.
  - unfold _on_ok.
    destruct (negb (PyStr.len (adm1_entry d) =? 8)
              || negb (PyStr.isdigit (adm1_entry d))) eqn:Ewf.
    { cbn [fst snd]. unfold dialog_invariant. rewrite Hopen.
      repeat apply conj; auto; try congruence.
      intros H3. destruct (Hbig H3) as [Hf Hb]. split; [exact Hf|].
      intros b Hin. apply in_app_iff in Hin as [Hin|[<-|[]]]; auto. }
    apply well_formed_dec in Ewf. destruct Ewf as [Hlen Hdig].
    destruct ((remaining_attempts d <? 3) && negb (force_auth d)) eqn:Eg.
    + apply andb_prop in Eg as [Elt _]. apply Z.ltb_lt in Elt.
      destruct answer; cbn [negb fst snd]; unfold dialog_invariant; cbn.
      * repeat apply conj; auto; try congruence; try lia.
        intros v [= <-]. repeat apply conj; auto. intros _. right.
        apply in_app_iff. right. left. now rewrite Hr.
      * rewrite Hopen. repeat apply conj; auto; try congruence; try lia.
    + cbn [fst snd]. rewrite app_nil_r. unfold dialog_invariant. cbn.
      repeat apply conj; auto; try congruence.
      intros v [= <-]. repeat apply conj; auto. intros Hlt. left.
      apply andb_false_iff in Eg as [Eg|Eg].
      * apply Z.ltb_ge in Eg. lia.
      * now apply negb_false_iff in Eg.
  - cbn [fst snd]. rewrite app_nil_r. unfold _on_cancel, dialog_invariant.
    cbn. intuition congruence.
  - cbn [fst snd]. rewrite app_nil_r. unfold dialog_invariant. cbn.
    rewrite Hopen. intuition congruence.
Qed.

Lemma session_invariant (r : Z) (events : list event) (d : ADM1Dialog)
    (boxes : list message_box) :
  dialog_invariant r d boxes ->
  dialog_invariant r (fst (session events d))
                   (boxes ++ snd (session events d)).
Proof.
  revert d boxes. induction events as [|e events IH]; intros d boxes H.
  - cbn. now rewrite app_nil_r.
  - cbn [session]. pose proof (handle_invariant r e d boxes H) as H1.
    destruct (handle e d) as [d1 boxes1]. cbn [fst snd] in H1.
    specialize (IH d1 (boxes ++ boxes1) H1).
    destruct (session events d1) as [d2 boxes2]. cbn [fst snd] in *.
    now rewrite app_assoc.
Qed.

Lemma init_invariant (r : Z) : dialog_invariant r (init r) [].
Proof.
  unfold dialog_invariant, init. cbn.
  intuition (try discriminate).
Qed.

(** X8: whatever the user does with a dialog, [get_adm1] hands back either
    no key or a key of exactly 8 characters that [str.isdigit] takes for
    digits (the digits 0 to 9 and the superscripts two, three and one),
    and a key is handed back only once the window is closed. *)
Theorem get_adm1_returns_no_key_or_eight_digits
    (r : Z) (events : list event) :
  fst (get_adm1 (fst (session events (init r)))) = None
  \/ exists v,
       fst (get_adm1 (fst (session events (init r)))) = Some v
       /\ Plain.digits_of_length 8 v
       /\ destroyed (fst (session events (init r))) = true.
Proof.
  pose proof (session_invariant r events (init r) [] (init_invariant r))
    as (_ & Hopen & Hval & _).
  unfold get_adm1. cbn [fst].
  destruct (adm1_value (fst (session events (init r)))) as [v|] eqn:E;
    [right | left; reflexivity].
  exists v. destruct (Hval v eq_refl) as (Hl & Hd & _).
  split; [reflexivity|]. split.
  - apply (PlainProps.isdigit_digits_of_length 8 v); [discriminate | auto].
  - destruct (destroyed (fst (session events (init r)))); [reflexivity|].
    specialize (Hopen eq_refl). congruence.
Qed.

Example superscript_key_is_handed_back :
  let key := "1234567" +:+ String "178" EmptyString in
  get_adm1 (fst (session [Edit key; Ok true] (init 3))) = (Some key, false).
Proof. reflexivity. Qed.

(** X9: a dialog opened with three or more remaining attempts never opens
    the confirmation box and never reports the force flag; one opened
    with fewer hands back a key only if the force flag is set or the
    confirmation box was opened. *)
Theorem confirmation_guards_low_attempts (r : Z) (events : list event) :
  (3 <= r ->
     snd (get_adm1 (fst (session events (init r)))) = false
     /\ forall b, In b (snd (session events (init r))) ->
                  is_confirmation b = false)
  /\ (r < 3 ->
      forall v, fst (get_adm1 (fst (session events (init r)))) = Some v ->
        snd (get_adm1 (fst (session events (init r)))) = true
        \/ In (AskYesNo "Confirm" (confirm_message r))
              (snd (session events (init r)))).
Proof.
  pose proof (session_invariant r events (init r) [] (init_invariant r))
    as (_ & _ & Hval & Hbig).
  cbn [app] in *. unfold get_adm1. cbn [fst snd]. split.
  - exact Hbig.
  - intros Hlt v Hv. destruct (Hval v Hv) as (_ & _ & H). auto.
Qed.

Lemma confirmation_guards_low_attempts_witness :
  snd (get_adm1 (fst (session [Edit "12345678"; ToggleForce; Ok true]
                              (init 3)))) = false
  /\ (fst (get_adm1 (fst (session [Edit "12345678"; Ok true] (init 1))))
      = Some "12345678" ->
      snd (get_adm1 (fst (session [Edit "12345678"; Ok true] (init 1))))
      = true
      \/ In (AskYesNo "Confirm" (confirm_message 1))
            (snd (session [Edit "12345678"; Ok true] (init 1)))).
Proof.
  split.
  - apply (proj1 (confirmation_guards_low_attempts 3
                    [Edit "12345678"; ToggleForce; Ok true])).
    lia.
  - apply (proj2 (confirmation_guards_low_attempts 1
                    [Edit "12345678"; Ok true])).
    lia.
Defined.

(** *** Pasting *)

Lemma keep_chars_all (keep : ascii -> bool) (text : string) :
  PyStr.all_chars keep (keep_chars keep text) = true.
Proof.
  induction text as [|ch text IH]; [reflexivity|]. cbn [keep_chars].
  destruct (keep ch) eqn:E; [|exact IH]. cbn. now rewrite E.
Qed.

Lemma keep_chars_fixed (keep : ascii -> bool) (text : string) :
  PyStr.all_chars keep text = true -> keep_chars keep text = text.
Proof.
  induction text as [|ch text IH]; [reflexivity|]. cbn.
  destruct (keep ch); [|discriminate]. cbn. intros H. now rewrite IH.
Qed.

Lemma append_cons (c : ascii) (s1 s2 : string) :
  String c s1 +:+ s2 = String c (s1 +:+ s2).
Proof. reflexivity. Qed.




Lemma all_chars_append (p : ascii -> bool) (s1 s2 : string) :
  PyStr.all_chars p (s1 +:+ s2)
  = PyStr.all_chars p s1 && PyStr.all_chars p s2.
Proof.
  induction s1 as [|c s1 IH]; [reflexivity|].
  rewrite append_cons. cbn [PyStr.all_chars].
  rewrite <- andb_assoc. f_equal. exact IH.
Qed.






Example delete_before_selection :
  entry_delete 0 2 {| content := "0012345678"; insert_pos := 10;
                      selection := Some (6, 10)%nat |}
  = {| content := "12345678"; insert_pos := 8;
       selection := Some (4, 8)%nat |}.
Proof. reflexivity. Qed.

(** A key pasted into an entry of the application leaves the button of
    the dialog as its own entry has it. *)
Example paste_key_with_line_end :
  _paste_sanitized (Some ("12345678" +:+ nl))
                   {| content := "00"; insert_pos := 2;
                      selection := Some (0, 2)%nat |}
                   (with_entry "1234" (init 3))
  = ({| content := "12345678"; insert_pos := 8; selection := None |},
     Some {| label_text := "4 more digits needed";
             label_foreground := "orange";
             ok_button := DISABLED |},
     Some "break").
Proof. reflexivity. Qed.

End Adm1Props.

(** ** The batch store *)

Module CsvProps.
Import Csv.

(** *** Out-of-range positions *)

Lemma in_range_false (index : Z) (m : CSVManager) :
  ~ (0 <= index < get_card_count m) -> in_range index m = false.
Proof.
  unfold in_range, get_card_count. intros H.
  destruct (0 <=? index) eqn:E1; [|reflexivity].
  destruct (index <? Z.of_nat (length (cards m))) eqn:E2; [|reflexivity].
  apply Z.leb_le in E1. apply Z.ltb_lt in E2. lia.
Qed.

Lemma add_stored_card_columns (index : Z) (m : CSVManager) :
  columns (add_stored_card index m) = columns m.
Proof.
  unfold add_stored_card.
  destruct ((0 <=? index) && (index <? Z.of_nat (length (cards m))));
    [|reflexivity].
  now destruct (entries m !! Z.to_nat index).
Qed.

Lemma cards_mk (es : list (nat * card)) (cols : list string)
    (fp : option string) :
  cards {| entries := es; columns := cols; filepath := fp |} = map snd es.
Proof. reflexivity. Qed.

Lemma snd_enumerate_from {A : Type} (n : nat) (l : list A) :
  map snd (enumerate_from n l) = l.
Proof.
  revert n. induction l as [|x l IH]; intros n; cbn; [reflexivity|].
  now rewrite IH.
Qed.

Lemma lookup_enumerate_from {A : Type} (n i : nat) (l : list A) :
  enumerate_from n l !! i = (fun x => ((n + i)%nat, x)) <$> l !! i.
Proof.
  revert n i. induction l as [|x l IH]; intros n [|i]; cbn; try reflexivity.
  - now rewrite Nat.add_0_r.
  - rewrite IH. destruct (l !! i); cbn; [|reflexivity].
    do 2 f_equal. lia.
Qed.

Lemma cards_enumerate (l : list card) (cols : list string)
    (fp : option string) :
  cards {| entries := enumerate l; columns := cols; filepath := fp |} = l.
Proof. rewrite cards_mk. apply snd_enumerate_from. Qed.

(** C7: at a position outside [0, count) [remove_card] and [update_card]
    answer [False] and leave the manager, hence every record, as it was,
    and [get_card] answers [None]; each of them returns normally. *)
Theorem out_of_range_is_not_found
    (m : CSVManager) (index : Z) (key value : string) :
  ~ (0 <= index < get_card_count m) ->
  remove_card index m = (false, m)
  /\ update_card index key value m = (false, m)
  /\ get_card index m = None.
Proof.
  intros H. unfold remove_card, update_card, get_card.
  rewrite (in_range_false index m H). auto.
Qed.

Lemma out_of_range_is_not_found_witness :
  remove_card (-1) (add_card None init) = (false, add_card None init)
  /\ update_card (-1) "IMSI" "001" (add_card None init)
     = (false, add_card None init)
  /\ get_card (-1) (add_card None init) = None.
Proof.
  apply (out_of_range_is_not_found (add_card None init) (-1) "IMSI" "001").
  unfold get_card_count. simpl. lia.
Defined.

(** X29: at a position outside [0, count) whose decimal text has at most
    4300 digits [validate_card] returns the one-element list
    ["Invalid index: <index>"], which is neither the empty defect list nor
    the [None]/[False] of the other accessors; at a position of more
    digits the formatting of that text raises [ValueError]. *)
Theorem validate_card_out_of_range (m : CSVManager) (index : Z) :
  ~ (0 <= index < get_card_count m) ->
  (Z.abs index < 10 ^ PyStr.max_str_digits ->
     validate_card index m
       = PyStr.Returns ["Invalid index: " +:+ PyStr.of_int index]
     /\ validate_card index m <> PyStr.Returns []
     /\ get_card index m = None)
  /\ (10 ^ PyStr.max_str_digits <= Z.abs index ->
        validate_card index m = PyStr.Raises PyStr.ValueError).
Proof.
  intros H. unfold validate_card, get_card, PyStr.format_int.
  rewrite (in_range_false index m H). split.
  - intros Hsmall. apply Z.ltb_lt in Hsmall. rewrite Hsmall.
    repeat apply conj; [reflexivity | discriminate | reflexivity].
  - intros Hbig. apply Z.ltb_ge in Hbig. rewrite Hbig. reflexivity.
Qed.

Lemma validate_card_out_of_range_witness :
  validate_card 7 (add_card None init) = PyStr.Returns ["Invalid index: 7"]
  /\ validate_card 7 (add_card None init) <> PyStr.Returns []
  /\ get_card 7 (add_card None init) = None.
Proof.
  refine (proj1 (validate_card_out_of_range (add_card None init) 7 _) _).
  - unfold get_card_count. simpl. lia.
  - apply Z.ltb_lt. vm_compute. reflexivity.
Defined.

(** C10, the code at the position 10^4300 of a batch of one row: the
    position is outside [0, count), where [get_card], [remove_card] and
    [update_card] answer [None] and [False]; [validate_card] neither
    returns the one-element defect list nor any list: formatting the
    position for the message raises [ValueError]. *)
Theorem validate_card_huge_index_raises :
  ~ (0 <= 10 ^ 4300 < get_card_count (add_card None init))
  /\ validate_card (10 ^ 4300) (add_card None init)
     = PyStr.Raises PyStr.ValueError
  /\ validate_card (10 ^ 4300) (add_card None init)
     <> PyStr.Returns ["Invalid index: " +:+ PyStr.of_int (10 ^ 4300)]
  /\ get_card (10 ^ 4300) (add_card None init) = None
  /\ fst (remove_card (10 ^ 4300) (add_card None init)) = false
  /\ fst (update_card (10 ^ 4300) "IMSI" "001010000000001"
                      (add_card None init)) = false.
Proof.
  assert (H : validate_card (10 ^ 4300) (add_card None init)
              = PyStr.Raises PyStr.ValueError)
    by (vm_compute; reflexivity).
  split; [|split; [|split; [|split; [|split]]]].
  - intros [_ Hlt]. apply Z.ltb_lt in Hlt. vm_compute in Hlt. discriminate.
  - exact H.
  - rewrite H. discriminate.
  - vm_compute. reflexivity.
  - vm_compute. reflexivity.
  - vm_compute. reflexivity.
Qed.


Lemma pretty_N_go_no_colon (x : N) (s : string) :
  PyStr.all_chars not_colon s = true ->
  PyStr.all_chars not_colon (pretty_N_go x s) = true.
Proof.
  revert s. induction (N.lt_wf_0 x) as [x _ IH]. intros s Hs.
  destruct (decide (x = 0)%N) as [->|Hx].
  - rewrite pretty_N_go_0. exact Hs.
  - rewrite pretty_N_go_step by lia. apply IH.
    + apply N.div_lt; lia.
    + simpl. rewrite Hs. unfold pretty_N_char.
      repeat case_match; reflexivity.
Qed.

Lemma pretty_N_no_colon (x : N) :
  PyStr.all_chars not_colon (pretty x) = true.
Proof.
  unfold pretty, pretty_N. case_decide; [reflexivity|].
  apply pretty_N_go_no_colon. reflexivity.
Qed.

Lemma of_int_no_colon (z : Z) :
  PyStr.all_chars not_colon (PyStr.of_int z) = true.
Proof.
  unfold PyStr.of_int, pretty, pretty_Z. destruct z as [|p|p].
  - reflexivity.
  - apply (pretty_N_no_colon (Npos p)).
  - simpl. apply (pretty_N_no_colon (Npos p)).
Qed.

Lemma split_at_colon (s1 s2 r1 r2 : string) :
  PyStr.all_chars not_colon s1 = true ->
  PyStr.all_chars not_colon s2 = true ->
  s1 +:+ String ":" r1 = s2 +:+ String ":" r2 ->
  s1 = s2 /\ r1 = r2.
Proof.
  revert s2. induction s1 as [|c s1 IH]; intros [|d s2]; simpl.
  - intros _ _ [= ->]. auto.
  - intros _ Hd [= <- _]. discriminate.
  - intros Hc _ [= -> _]. discriminate.
  - intros Hc Hd [= -> Heq].
    apply andb_prop in Hc as [_ Hc]. apply andb_prop in Hd as [_ Hd].
    destruct (IH s2 Hc Hd Heq) as [-> ->]. auto.
Qed.

Lemma row_message_inj (r1 r2 : Z) (w1 w2 : string) :
  row_message r1 w1 = row_message r2 w2 -> r1 = r2 /\ w1 = w2.
Proof.
  unfold row_message. simpl. intros [= H].
  apply split_at_colon in H; try apply of_int_no_colon.
  destruct H as [Hr [= Hw]]. split; [|exact Hw].
  apply (inj pretty). exact Hr.
Qed.

(** *** Bulk validation *)

Lemma validate_step_app (errors : list string) (ic : nat * card) :
  validate_step errors ic = errors ++ validate_step [] ic.
Proof.
  destruct ic as [i c]. unfold validate_step.
  repeat match goal with
         | |- context [if ?b then _ else _] => destruct b
         end;
    simpl; rewrite <- ?app_assoc, ?app_nil_r; reflexivity.
Qed.

Lemma fold_validate_step (l : list (nat * card)) (acc : list string) :
  fold_left validate_step l acc = acc ++ flat_map (validate_step []) l.
Proof.
  revert acc. induction l as [|ic l IH]; intros acc; simpl.
  - now rewrite app_nil_r.
  - rewrite IH, (validate_step_app acc ic), <- app_assoc. reflexivity.
Qed.

Lemma in_enumerate_from {A : Type} (n j : nat) (x : A) (l : list A) :
  In (j, x) (enumerate_from n l)
  <-> exists k : nat, j = (n + k)%nat /\ l !! k = Some x.
Proof.
  revert n. induction l as [|y l IH]; intros n; simpl.
  - split; [tauto | intros (k & _ & H); discriminate].
  - rewrite IH. split.
    + intros [[= <- <-] | (k & -> & H)].
      * exists 0%nat. split; [lia | reflexivity].
      * exists (S k). split; [lia | exact H].
    + intros ([|k] & -> & H); simpl in H.
      * left. injection H as ->. f_equal. lia.
      * right. exists k. split; [lia | exact H].
Qed.

Lemma in_validate_all (m : CSVManager) (msg : string) :
  In msg (validate_all m)
  <-> exists (j : nat) (c : card),
        cards m !! j = Some c /\ In msg (validate_step [] (j, c)).
Proof.
  unfold validate_all, enumerate. rewrite fold_validate_step. simpl.
  rewrite in_flat_map. split.
  - intros ([j c] & Hin & Hmsg). apply in_enumerate_from in Hin.
    destruct Hin as (k & -> & Hk). exists k, c. auto.
  - intros (j & c & Hj & Hmsg). exists (j, c). split; [|exact Hmsg].
    apply in_enumerate_from. exists j. auto.
Qed.

Lemma validate_step_row_errors (j : nat) (c : card) :
  validate_step [] (j, c) = row_errors j c.
Proof.
  unfold validate_step, row_errors, rules.
  cbn [flat_map rule_fires snd].
  repeat match goal with
         | |- context [if ?b then _ else _] => destruct b
         end; reflexivity.
Qed.

Lemma in_validate_step (j : nat) (c : card) (msg : string) :
  In msg (validate_step [] (j, c))
  <-> exists r, In r rules /\ rule_fires c r = true
                /\ msg = row_message (Z.of_nat j + 1) (snd r).
Proof.
  rewrite validate_step_row_errors. unfold row_errors.
  rewrite in_flat_map. split.
  - intros (r & Hr & Hmsg). exists r. destruct (rule_fires c r).
    + destruct Hmsg as [<-|[]]. auto.
    + destruct Hmsg.
  - intros (r & Hr & Hfire & ->). exists r. rewrite Hfire.
    split; [exact Hr | left; reflexivity].
Qed.

Lemma truthy_nonempty (s : string) : PyStr.truthy s = true <-> s <> "".
Proof. destruct s; simpl; split; congruence. Qed.

Lemma nonempty_and_spec (key : string) (d : pydict) (test : string -> bool) :
  nonempty_and (dict_get_default key (PyStr "") d) test = true
  <-> exists s, dict_get key d = Some (PyStr s) /\ s <> "" /\ test s = true.
Proof.
  unfold dict_get_default, nonempty_and.
  destruct (dict_get key d) as [[|s]|]; simpl.
  - split; [discriminate | intros (s & [=] & _)].
  - rewrite andb_true_iff, truthy_nonempty. split.
    + intros [Hs Ht]. exists s. auto.
    + intros (s' & [= <-] & Hs & Ht). auto.
  - split; [discriminate | intros (s & [=] & _)].
Qed.

Lemma bad_digits_plain (lo hi : nat) (s : string) :
  s <> "" ->
  bad_digits (Z.of_nat lo) (Z.of_nat hi) s = true
  <-> ~ Plain.made_of Plain.python_digits s
      \/ ~ (lo <= String.length s <= hi)%nat.
Proof.
  intros Hs. unfold bad_digits.
  rewrite orb_true_iff, !negb_true_iff, andb_false_iff, Z.leb_gt, Z.leb_gt.
  unfold PyStr.len.
  assert (Hd : PyStr.isdigit s = false
               <-> ~ Plain.made_of Plain.python_digits s).
  { rewrite <- not_true_iff_false, PlainProps.isdigit_made_of. tauto. }
  rewrite Hd. split; (intros [H|H]; [left; exact H | right; lia]).
Qed.

Lemma bad_hex32_plain (s : string) :
  bad_hex32 s = true <-> ~ Plain.hex32_apart_from_spaces s.
Proof.
  unfold bad_hex32, Plain.hex32_apart_from_spaces.
  rewrite orb_true_iff, !negb_true_iff, Z.eqb_neq. unfold PyStr.len.
  rewrite <- PlainProps.chars_remove_space, PlainProps.length_chars.
  rewrite <- not_true_iff_false, PlainProps.all_chars_Forall.
  rewrite (PlainProps.Forall_iff_pointwise _
             (fun c => In c Plain.hex_digits))
    by (intros c; apply (PlainProps.char_in_listed c hexdigits)).
  split.
  - intros [H|H] [H1 H2]; [lia | auto].
  - intros H.
    destruct (Nat.eq_dec (String.length (PyStr.remove_char " " s)) 32%nat)
      as [E|E]; [right | left; lia].
    intros H2. apply H. auto.
Qed.

Lemma exists_tested (key : string) (c : card) (test : string -> bool)
    (P : string -> Prop) :
  (forall s, s <> "" -> test s = true <-> P s) ->
  (exists s, dict_get key (fields c) = Some (PyStr s)
             /\ s <> "" /\ test s = true)
  <-> exists s, present_nonempty key c s /\ P s.
Proof.
  intros H. unfold present_nonempty.
  split; intros (s & H1); exists s; specialize (H s); tauto.
Qed.

Lemma bad_adm1_spec (s : string) :
  bad_adm1 s = true <-> String.length s <> 8%nat.
Proof.
  unfold bad_adm1, PyStr.len. rewrite negb_true_iff, Z.eqb_neq. lia.
Qed.

Lemma rules_words_inj (r r' : string * (string -> bool) * string) :
  In r rules -> In r' rules -> snd r = snd r' -> r = r'.
Proof.
  unfold rules. simpl. intros H H'.
  repeat match goal with
         | H : _ \/ _ |- _ => destruct H as [H|H]
         | H : False |- _ => destruct H
         end; subst r r'; simpl; intros E;
    first [reflexivity | discriminate E].
Qed.

Lemma flagged_iff_rule_fires
    (m : CSVManager) (i : nat) (c : card)
    (r : string * (string -> bool) * string) :
  cards m !! i = Some c -> In r rules ->
  flagged m i (snd r) <-> rule_fires c r = true.
Proof.
  intros Hc Hr. unfold flagged. rewrite in_validate_all. split.
  - intros (j & c' & Hj & Hin). apply in_validate_step in Hin.
    destruct Hin as (r' & Hr' & Hfire & Heq).
    apply row_message_inj in Heq as [Hrow Hw].
    assert (i = j) by lia. subst j.
    rewrite (rules_words_inj r r' Hr Hr' Hw). congruence.
  - intros Hfire. exists i, c. split; [exact Hc|].
    apply in_validate_step. exists r. auto.
Qed.

(** Replace the report of a rule by the rule's test on the field. *)
Ltac use_rule m i c Hc r :=
  let H := fresh in
  pose proof (flagged_iff_rule_fires m i c r Hc) as H;
  cbn [snd rule_fires] in H;
  rewrite H by (simpl; tauto); clear H;
  rewrite nonempty_and_spec.

(** X28: for the record at any position of the batch, [validate_all]
    reports the IMSI defect of its row exactly when the field is present
    with a non-empty text that has a character [str.isdigit] does not take
    for a digit (anything but 0 to 9 and the superscripts two, three and
    one) or whose length is outside [6,15]; the ICCID defect likewise with
    [10,20]; the Ki and the OPc defect exactly when the field is present,
    non-empty and, once its spaces are taken out, is not 32 hexadecimal
    characters; the ADM1 defect exactly when the field is present,
    non-empty and not 8 characters long.  A field that is absent, [None]
    or empty is never reported. *)
Theorem validate_all_characterised (m : CSVManager) (i : nat) (c : card) :
  cards m !! i = Some c ->
  (flagged m i "IMSI must be 6-15 digits" <->
     exists s, present_nonempty "IMSI" c s
               /\ (~ Plain.made_of Plain.python_digits s
                   \/ ~ (6 <= String.length s <= 15)%nat))
  /\ (flagged m i "ICCID must be 10-20 digits" <->
        exists s, present_nonempty "ICCID" c s
                  /\ (~ Plain.made_of Plain.python_digits s
                      \/ ~ (10 <= String.length s <= 20)%nat))
  /\ (flagged m i "Ki must be 32 hex chars" <->
        exists s, present_nonempty "Ki" c s
                  /\ ~ Plain.hex32_apart_from_spaces s)
  /\ (flagged m i "OPc must be 32 hex chars" <->
        exists s, present_nonempty "OPc" c s
                  /\ ~ Plain.hex32_apart_from_spaces s)
  /\ (flagged m i "ADM1 must be 8 chars" <->
        exists s, present_nonempty "ADM1" c s /\ String.length s <> 8%nat)
  /\ (forall key what, In (key, what) defects ->
        dict_get key (fields c) = None
        \/ dict_get key (fields c) = Some PyNone
        \/ dict_get key (fields c) = Some (PyStr "") ->
        ~ flagged m i what).
Proof.
  intros Hc.
  split; [|split; [|split; [|split; [|split]]]].
  - use_rule m i c Hc ("IMSI", bad_digits 6 15, "IMSI must be 6-15 digits").
    apply exists_tested. intros s Hs. apply (bad_digits_plain 6 15 s Hs).
  - use_rule m i c Hc ("ICCID", bad_digits 10 20, "ICCID must be 10-20 digits").
    apply exists_tested. intros s Hs. apply (bad_digits_plain 10 20 s Hs).
  - use_rule m i c Hc ("Ki", bad_hex32, "Ki must be 32 hex chars").
    apply exists_tested. intros s _. apply bad_hex32_plain.
  - use_rule m i c Hc ("OPc", bad_hex32, "OPc must be 32 hex chars").
    apply exists_tested. intros s _. apply bad_hex32_plain.
  - use_rule m i c Hc ("ADM1", bad_adm1, "ADM1 must be 8 chars").
    apply exists_tested. intros s _. apply bad_adm1_spec.
  - intros key what Hin Hempty Hflag.
    assert (Hr : exists test, In (key, test, what) rules).
    { unfold defects in Hin. cbn [In] in Hin.
      repeat (destruct Hin as [[= <- <-]|Hin];
              [eexists; unfold rules; cbn [In]; eauto 10|]).
      destruct Hin. }
    destruct Hr as [test Hr].
    apply (flagged_iff_rule_fires m i c (key, test, what) Hc Hr) in Hflag.
    cbn [fst snd rule_fires] in *.
    apply nonempty_and_spec in Hflag as (s & Hget & Hne & _).
    destruct Hempty as [H|[H|H]]; rewrite H in Hget; try discriminate.
    injection Hget as <-. apply Hne. reflexivity.
Qed.

Example validate_all_sample_batch :
  validate_all sample_batch = ["Row 2: Ki must be 32 hex chars"].
Proof. vm_compute. reflexivity. Qed.

Lemma validate_all_characterised_witness :
  flagged sample_batch 1 "Ki must be 32 hex chars" <->
    exists s,
      present_nonempty "Ki"
        {| fields := [("IMSI", PyStr "001010000000002");
                      ("Ki", PyStr "00112233445566778899aabbccddeef")];
           rest := None |} s
      /\ ~ Plain.hex32_apart_from_spaces s.
Proof.
  apply (proj1 (proj2 (proj2
    (validate_all_characterised sample_batch 1
       {| fields := [("IMSI", PyStr "001010000000002");
                     ("Ki", PyStr "00112233445566778899aabbccddeef")];
          rest := None |} eq_refl)))).
Defined.

(** C1, the code at an IMSI of six superscript twos: the field is present
    and not empty, none of its characters is one of the digits 0 to 9, so
    it is not all-digit and the claim has it flagged; [validate_all]
    reports nothing for the row, because [str.isdigit] takes the
    superscripts for digits. *)
Theorem validate_all_passes_superscript_imsi :
  let m := add_card (Some superscript_card) init in
  cards m !! 0%nat = Some superscript_card
  /\ present_nonempty "IMSI" superscript_card superscript_imsi
  /\ String.length superscript_imsi = 6%nat
  /\ (forall ch, In ch (Plain.chars superscript_imsi) ->
        ~ In ch Plain.decimal_digits)
  /\ validate_all m = []
  /\ ~ flagged m 0 "IMSI must be 6-15 digits".
Proof.
  cbn zeta. split; [reflexivity|]. split; [split; [reflexivity|discriminate]|].
  split; [reflexivity|]. split; [|split].
  - intros ch Hch Hd. vm_compute in Hch.
    repeat (destruct Hch as [<-|Hch];
            [vm_compute in Hd;
             repeat (destruct Hd as [Hd|Hd]; [discriminate Hd|]);
             destruct Hd|]).
    destruct Hch.
  - vm_compute. reflexivity.
  - unfold flagged.
    assert (E : validate_all (add_card (Some superscript_card) init) = [])
      by (vm_compute; reflexivity).
    rewrite E. intros [].
Qed.

(** *** The column set *)

Lemma str_in_In (k : string) (l : list string) :
  str_in k l = true <-> In k l.
Proof.
  unfold str_in. rewrite existsb_exists. split.
  - intros (x & Hx & E). apply String.eqb_eq in E. now subst.
  - intros H. exists k. split; [exact H | apply String.eqb_refl].
Qed.

Lemma str_in_app (k : string) (l1 l2 : list string) :
  str_in k (l1 ++ l2) = str_in k l1 || str_in k l2.
Proof. unfold str_in. apply existsb_app. Qed.

Lemma dict_keys_set (k : string) (v : pyval) (d : pydict) :
  dict_keys (dict_set k v d)
  = if str_in k (dict_keys d) then dict_keys d else dict_keys d ++ [k].
Proof.
  induction d as [|[k' v'] d IH]; simpl; [reflexivity|].
  destruct (String.eqb k k') eqn:E; simpl; [reflexivity|].
  rewrite IH. destruct (str_in k (dict_keys d)); reflexivity.
Qed.

Lemma dict_set_NoDup (k : string) (v : pyval) (d : pydict) :
  List.NoDup (dict_keys d) -> List.NoDup (dict_keys (dict_set k v d)).
Proof.
  intros H. rewrite dict_keys_set.
  destruct (str_in k (dict_keys d)) eqn:E; [exact H|].
  assert (Hk : ~ In k (dict_keys d)).
  { intros Hin. apply str_in_In in Hin. congruence. }
  clear E. induction (dict_keys d) as [|x l IH]; simpl.
  - constructor; [tauto | constructor].
  - inversion H as [|? ? Hx Hl]; subst. constructor.
    + rewrite in_app_iff. simpl. intros [?|[?|[]]]; [tauto|].
      subst. apply Hk. now left.
    + apply IH; [exact Hl|]. intros ?. apply Hk. now right.
Qed.

Lemma parameter_line_NoDup (d : pydict) (line : string) :
  List.NoDup (dict_keys d) -> List.NoDup (dict_keys (parameter_line d line)).
Proof.
  intros H. unfold parameter_line.
  destruct (negb (PyStr.truthy (PyStr.strip line))
            || PyStr.startswith_char "#" (PyStr.strip line)); [exact H|].
  destruct (PyStr.partition "=" (PyStr.strip line)) as [[key found] value].
  destruct found; [apply dict_set_NoDup|]; exact H.
Qed.

Lemma parameter_lines_NoDup (lines : list string) (d : pydict) :
  List.NoDup (dict_keys d) ->
  List.NoDup (dict_keys (fold_left parameter_line lines d)).
Proof.
  revert d. induction lines as [|l lines IH]; intros d H; simpl; [exact H|].
  apply IH, parameter_line_NoDup, H.
Qed.

Lemma new_keys_skip (cols keys : list string) (k : string) :
  ~ In k keys -> new_keys (cols ++ [k]) keys = new_keys cols keys.
Proof.
  intros Hk. unfold new_keys. apply filter_ext_in. intros x Hx.
  rewrite str_in_app. simpl. rewrite orb_false_r.
  destruct (String.eqb x k) eqn:E.
  - apply String.eqb_eq in E. subst. contradiction.
  - now rewrite orb_false_r.
Qed.

Lemma merge_columns_new_keys (keys cols : list string) :
  List.NoDup keys -> merge_columns cols keys = cols ++ new_keys cols keys.
Proof.
  unfold merge_columns. revert cols.
  induction keys as [|k keys IH]; intros cols H; simpl.
  - now rewrite app_nil_r.
  - inversion H as [|? ? Hk Hks]; subst.
    destruct (str_in k cols) eqn:E; simpl.
    + apply IH, Hks.
    + rewrite (IH _ Hks), new_keys_skip by exact Hk.
      now rewrite <- app_assoc.
Qed.

Lemma step_columns_prefix (o : op) (m : CSVManager) :
  is_load o = false -> exists extra, columns (step o m) = columns m ++ extra.
Proof.
  destruct o as [src path|src|card_data|index|index key value|index]; simpl;
    intros Hload; try discriminate.
  - unfold load_card_parameters_file. destruct src as [lines|].
    + destruct (fold_left parameter_line lines []) as [|e d] eqn:E;
        cbn [snd columns].
      * exists []. now rewrite app_nil_r.
      * exists (new_keys (columns m) (dict_keys (e :: d))).
        apply merge_columns_new_keys. rewrite <- E.
        apply parameter_lines_NoDup. constructor.
    + exists []. simpl. now rewrite app_nil_r.
  - exists []. now rewrite app_nil_r.
  - exists []. unfold remove_card. destruct (in_range index m); simpl;
      now rewrite app_nil_r.
  - exists []. unfold update_card. destruct (in_range index m); simpl;
      now rewrite app_nil_r.
  - exists []. now rewrite add_stored_card_columns, app_nil_r.
Qed.

Lemma run_columns_prefix (ops : list op) (m : CSVManager) :
  forallb (fun o => negb (is_load o)) ops = true ->
  exists extra, columns (run ops m) = columns m ++ extra.
Proof.
  unfold run. revert m. induction ops as [|o ops IH]; intros m H; simpl.
  - exists []. now rewrite app_nil_r.
  - simpl in H. apply andb_prop in H as [Ho Hops].
    apply negb_true_iff in Ho.
    destruct (step_columns_prefix o m Ho) as [e1 E1].
    destruct (IH (step o m) Hops) as [e2 E2].
    exists (e1 ++ e2). rewrite E2, E1. now rewrite <- app_assoc.
Qed.

(** C4, as the code has it: over any sequence of parameter-file imports,
    adds, removes and updates the column set before is a prefix of the
    column set after, so no column is removed or moved; a remove leaves the
    column set as it is; a successful parameter-file import appends, in the
    record's key order, the record's keys that were not yet columns; a load
    of a file with a header row replaces the column set by that header. *)
Theorem columns_grow_between_loads :
  (forall (ops : list op) (m : CSVManager),
     forallb (fun o => negb (is_load o)) ops = true ->
     exists extra, columns (run ops m) = columns m ++ extra)
  /\ (forall (index : Z) (m : CSVManager),
        columns (snd (remove_card index m)) = columns m)
  /\ (forall (lines : list string) (m : CSVManager),
        fst (load_card_parameters_file (Some lines) m) = true ->
        columns (snd (load_card_parameters_file (Some lines) m))
        = columns m
          ++ new_keys (columns m)
               (dict_keys (fold_left parameter_line lines [])))
  /\ (forall (fieldnames : list string) (rows : list (list string))
             (broken : bool) (path : string) (m : CSVManager),
        columns (snd (load_csv (Readable (fieldnames :: rows) broken) path m))
        = fieldnames).
Proof.
  split; [exact run_columns_prefix|]. split; [|split].
  - intros index m. unfold remove_card. now destruct (in_range index m).
  - intros lines m. unfold load_card_parameters_file.
    destruct (fold_left parameter_line lines []) as [|e d] eqn:E;
      cbn [fst snd columns]; [discriminate|].
    intros _. apply merge_columns_new_keys. rewrite <- E.
    apply parameter_lines_NoDup. constructor.
  - intros fieldnames rows broken path m. simpl. now destruct broken.
Qed.

Lemma columns_grow_between_loads_witness :
  (exists extra,
     columns (run [Import (Some ["# spare card"; "IMSI = 001010000000001";
                                 "NOTE=bench"]);
                   Add None; Remove 0] init)
     = columns init ++ extra)
  /\ columns (snd (load_card_parameters_file
                     (Some ["# spare card"; "IMSI = 001010000000001";
                            "NOTE=bench"]) init))
     = STANDARD_COLUMNS ++ ["NOTE"].
Proof.
  split.
  - apply (proj1 columns_grow_between_loads). reflexivity.
  - apply (proj1 (proj2 (proj2 columns_grow_between_loads))
             ["# spare card"; "IMSI = 001010000000001"; "NOTE=bench"] init).
    reflexivity.
Defined.

(** C4, as the specification has it, fails: a column brought in by a
    parameter file is gone after the next load. *)
Lemma load_replaces_columns_counterexample :
  let m1 := run [Import (Some ["NOTE=bench"])] init in
  let m2 := run [Import (Some ["NOTE=bench"]);
                 Load (Readable [["ICCID"]; ["8988211000000000001"]] false)
                      "batch.csv"] init in
  In "NOTE" (columns m1)
  /\ columns m2 = ["ICCID"]
  /\ ~ In "NOTE" (columns m2).
Proof.
  simpl. split; [|split].
  - vm_compute. tauto.
  - reflexivity.
  - vm_compute. intros [H|[]]. discriminate H.
Qed.

(** *** Saving and loading *)

Lemma dict_get_set (k k0 : string) (v : pyval) (d : pydict) :
  dict_get k (dict_set k0 v d)
  = if String.eqb k k0 then Some v else dict_get k d.
Proof.
  induction d as [|[k' v'] d IH]; simpl.
  - reflexivity.
  - destruct (String.eqb k0 k') eqn:E0; simpl.
    + apply String.eqb_eq in E0. subst k'.
      destruct (String.eqb k k0); reflexivity.
    + rewrite IH. destruct (String.eqb k k') eqn:E1; [|reflexivity].
      apply String.eqb_eq in E1. subst k'.
      rewrite String.eqb_sym, E0. reflexivity.
Qed.













(** *** Adding, reading, editing and removing rows *)

Lemma manager_eta (m : CSVManager) :
  {| entries := entries m; columns := columns m; filepath := filepath m |}
  = m.
Proof. destruct m; reflexivity. Qed.

Lemma cards_length (m : CSVManager) :
  length (cards m) = length (entries m).
Proof. apply length_map. Qed.

Lemma cards_lookup (m : CSVManager) (i : nat) :
  cards m !! i = snd <$> entries m !! i.
Proof. apply list_lookup_fmap. Qed.

Lemma entry_of_card (m : CSVManager) (i : nat) (c : card) :
  cards m !! i = Some c -> exists o, entries m !! i = Some (o, c).
Proof.
  rewrite cards_lookup.
  destruct (entries m !! i) as [[o c']|]; [|discriminate].
  intros [= ->]. eauto.
Qed.

Lemma snd_delete {A B : Type} (i : nat) (l : list (A * B)) :
  map snd (delete i l) = delete i (map snd l).
Proof.
  revert i. induction l as [|x l IH]; intros [|i]; cbn; try reflexivity.
  now rewrite IH.
Qed.

Lemma get_card_lookup (j : Z) (m : CSVManager) :
  get_card j m = if 0 <=? j then cards m !! Z.to_nat j else None.
Proof.
  unfold get_card, in_range.
  destruct (0 <=? j) eqn:E0; [|reflexivity]. cbn [andb].
  destruct (j <? Z.of_nat (length (cards m))) eqn:E1; [reflexivity|].
  symmetry. apply lookup_ge_None. apply Z.ltb_ge in E1.
  apply Z.leb_le in E0. lia.
Qed.

Lemma in_range_true (index : Z) (m : CSVManager) :
  0 <= index < get_card_count m -> in_range index m = true.
Proof.
  unfold in_range, get_card_count. intros [H0 H1].
  apply andb_true_intro. split; [apply Z.leb_le | apply Z.ltb_lt]; lia.
Qed.

(** The card [add_card] appends. *)
Lemma added_card_eq (card_data : option card) (m : CSVManager) :
  cards (add_card card_data m)
  = cards m ++ [match card_data with
                | None => empty_card (columns m)
                | Some c => c
                end].
Proof. unfold add_card. rewrite cards_mk. apply map_app. Qed.

(** X10: [add_card] puts the new row at position [count] and leaves the
    rows before it alone; removing that position again gives back the
    manager as it was before the addition. *)
Theorem add_then_remove_last (card_data : option card) (m : CSVManager) :
  remove_card (get_card_count m) (add_card card_data m) = (true, m)
  /\ get_card_count (add_card card_data m) = get_card_count m + 1
  /\ forall j : Z,
       get_card j (add_card card_data m)
       = if j =? get_card_count m
         then Some (match card_data with
                    | None => empty_card (columns m)
                    | Some c => c
                    end)
         else get_card j m.
Proof.
  split; [|split].
  - unfold remove_card.
    rewrite in_range_true.
    + unfold get_card_count. rewrite Nat2Z.id, cards_length.
      cbn [entries columns filepath add_card].
      rewrite (delete_middle (entries m) []), app_nil_r.
      now rewrite manager_eta.
    + unfold get_card_count. rewrite added_card_eq, length_app. cbn. lia.
  - unfold get_card_count. rewrite added_card_eq, length_app. cbn. lia.
  - intros j. rewrite !get_card_lookup, added_card_eq. unfold get_card_count.
    destruct (0 <=? j) eqn:E0.
    + apply Z.leb_le in E0.
      destruct (j =? Z.of_nat (length (cards m))) eqn:E.
      * apply Z.eqb_eq in E. rewrite E, Nat2Z.id.
        now rewrite list_lookup_middle.
      * apply Z.eqb_neq in E.
        destruct (decide (Z.to_nat j < length (cards m))%nat) as [Hlt|Hge].
        -- now rewrite lookup_app_l.
        -- rewrite (proj2 (lookup_ge_None (cards m) _)) by lia.
           apply lookup_ge_None. rewrite length_app. cbn. lia.
    + destruct (j =? Z.of_nat (length (cards m))) eqn:E; [|reflexivity].
      apply Z.eqb_eq in E. apply Z.leb_gt in E0. lia.
Qed.

Lemma assign_lookup (i j : nat) (key value : string)
    (es : list (nat * card)) (o : nat) (c : card) :
  es !! i = Some (o, c) ->
  assign i key value es !! j
  = (fun e : nat * card =>
       if Nat.eqb (fst e) o then (fst e, card_set key value (snd e)) else e)
    <$> es !! j.
Proof.
  intros Hi. unfold assign. rewrite Hi. apply list_lookup_fmap.
Qed.

Lemma assign_length (i : nat) (key value : string)
    (es : list (nat * card)) :
  length (assign i key value es) = length es.
Proof.
  unfold assign. destruct (es !! i) as [[o c]|]; [|reflexivity].
  apply length_map.
Qed.

(** X11: at a position inside [0, count) [update_card] answers [True] and
    assigns to the dict object of that row, in place: every row that holds
    this object (the row itself, and any row the same dict was added as)
    then reads the new value under the key and its old values under every
    other key; the rows that hold another object, the number of rows and
    the columns are as before (a new key does not become a column). *)
Theorem update_card_in_range
    (m : CSVManager) (index : Z) (key value : string) :
  0 <= index < get_card_count m ->
  exists (o : nat) (c : card),
    entries m !! Z.to_nat index = Some (o, c)
    /\ get_card index m = Some c
    /\ fst (update_card index key value m) = true
    /\ (forall (j : nat) (o' : nat) (c' : card),
          entries m !! j = Some (o', c') ->
          entries (snd (update_card index key value m)) !! j
          = Some (o', if Nat.eqb o' o then card_set key value c' else c'))
    /\ get_card index (snd (update_card index key value m))
       = Some (card_set key value c)
    /\ (forall c' : card,
          dict_get key (fields (card_set key value c')) = Some (PyStr value)
          /\ forall k, k <> key ->
               dict_get k (fields (card_set key value c'))
               = dict_get k (fields c'))
    /\ get_card_count (snd (update_card index key value m)) = get_card_count m
    /\ columns (snd (update_card index key value m)) = columns m.
Proof.
  intros Hin. pose proof (in_range_true index m Hin) as Hr.
  unfold get_card_count in Hin.
  destruct (lookup_lt_is_Some_2 (cards m) (Z.to_nat index)) as [c Hc]; [lia|].
  destruct (entry_of_card m _ c Hc) as [o Ho].
  exists o, c. unfold update_card. rewrite Hr. cbn [fst snd].
  assert (H0 : (0 <=? index) = true) by (apply Z.leb_le; lia).
  split; [exact Ho|]. split; [|split; [reflexivity|]].
  { rewrite get_card_lookup, H0. exact Hc. }
  split; [|split; [|split; [|split]]].
  - intros j o' c' Hj. cbn [entries].
    rewrite (assign_lookup _ j key value _ o c Ho), Hj. cbn [fmap option_fmap option_map fst snd].
    now destruct (Nat.eqb o' o).
  - rewrite get_card_lookup, H0, cards_lookup. cbn [entries].
    rewrite (assign_lookup _ _ key value _ o c Ho), Ho.
    cbn [fmap option_fmap option_map fst snd]. now rewrite Nat.eqb_refl.
  - intros c'. split.
    + cbn [card_set fields]. rewrite dict_get_set, String.eqb_refl.
      reflexivity.
    + intros k Hk. cbn [card_set fields]. rewrite dict_get_set.
      destruct (String.eqb k key) eqn:E; [|reflexivity].
      apply String.eqb_eq in E. contradiction.
  - unfold get_card_count. rewrite !cards_length. cbn [entries].
    now rewrite assign_length.
  - reflexivity.
Qed.

Lemma update_card_in_range_witness :
  let m := add_stored_card 1 sample_batch in
  exists (o : nat) (c : card),
    entries m !! Z.to_nat 3 = Some (o, c)
    /\ get_card 3 m = Some c
    /\ fst (update_card 3 "Ki" "00112233445566778899aabbccddeeff" m) = true
    /\ (forall (j : nat) (o' : nat) (c' : card),
          entries m !! j = Some (o', c') ->
          entries (snd (update_card 3 "Ki"
                          "00112233445566778899aabbccddeeff" m)) !! j
          = Some (o', if Nat.eqb o' o
                      then card_set "Ki" "00112233445566778899aabbccddeeff" c'
                      else c'))
    /\ get_card 3 (snd (update_card 3 "Ki"
                          "00112233445566778899aabbccddeeff" m))
       = Some (card_set "Ki" "00112233445566778899aabbccddeeff" c)
    /\ (forall c' : card,
          dict_get "Ki"
            (fields (card_set "Ki" "00112233445566778899aabbccddeeff" c'))
          = Some (PyStr "00112233445566778899aabbccddeeff")
          /\ forall k, k <> "Ki" ->
               dict_get k
                 (fields (card_set "Ki" "00112233445566778899aabbccddeeff"
                            c'))
               = dict_get k (fields c'))
    /\ get_card_count (snd (update_card 3 "Ki"
                              "00112233445566778899aabbccddeeff" m))
       = get_card_count m
    /\ columns (snd (update_card 3 "Ki" "00112233445566778899aabbccddeeff"
                                 m))
       = columns m.
Proof.
  apply (update_card_in_range (add_stored_card 1 sample_batch) 3 "Ki"
           "00112233445566778899aabbccddeeff").
  vm_compute. split; [discriminate | reflexivity].
Defined.

(** X12: at a position inside [0, count) [remove_card] answers [True],
    there is one row fewer, the rows before the position stay where they
    were and each later row moves up by one; the columns are as before. *)
Theorem remove_card_in_range (m : CSVManager) (index : Z) :
  0 <= index < get_card_count m ->
  fst (remove_card index m) = true
  /\ get_card_count (snd (remove_card index m)) = get_card_count m - 1
  /\ (forall j, get_card j (snd (remove_card index m))
                = if j <? index then get_card j m else get_card (j + 1) m)
  /\ columns (snd (remove_card index m)) = columns m.
Proof.
  intros Hin. pose proof (in_range_true index m Hin) as Hr.
  unfold remove_card. rewrite Hr. cbn [fst snd].
  unfold get_card_count in *. rewrite cards_mk, snd_delete.
  fold (cards m). cbn [columns].
  repeat apply conj; try reflexivity.
  - rewrite length_delete.
    + lia.
    + apply lookup_lt_is_Some. lia.
  - intros j. rewrite !get_card_lookup. rewrite cards_mk, snd_delete.
    fold (cards m).
    destruct (j <? index) eqn:Ej.
    + apply Z.ltb_lt in Ej. destruct (0 <=? j) eqn:E0; [|reflexivity].
      apply Z.leb_le in E0. apply list_lookup_delete_lt. lia.
    + apply Z.ltb_ge in Ej.
      assert (Hj : (0 <=? j) = true) by (apply Z.leb_le; lia).
      assert (Hj1 : (0 <=? j + 1) = true) by (apply Z.leb_le; lia).
      rewrite Hj, Hj1, list_lookup_delete_ge by lia.
      f_equal. lia.
Qed.

Lemma remove_card_in_range_witness :
  fst (remove_card 0 sample_batch) = true
  /\ get_card_count (snd (remove_card 0 sample_batch))
     = get_card_count sample_batch - 1
  /\ (forall j, get_card j (snd (remove_card 0 sample_batch))
                = if j <? 0 then get_card j sample_batch
                  else get_card (j + 1) sample_batch)
  /\ columns (snd (remove_card 0 sample_batch)) = columns sample_batch.
Proof.
  apply (remove_card_in_range sample_batch 0).
  unfold get_card_count. cbn. lia.
Defined.

(** *** Rows that share a dict *)

Lemma fresh_object_above (o : nat) (es : list (nat * card)) :
  In o (map fst es) -> (o < fresh_object es)%nat.
Proof.
  unfold fresh_object. induction es as [|[o' c] es IH]; cbn; [tauto|].
  intros [->|H]; [lia|]. specialize (IH H). lia.
Qed.

Lemma coherent_snoc (es : list (nat * card)) (o : nat) (c : card)
    (cols : list string) (fp fp' : option string) :
  coherent {| entries := es; columns := cols; filepath := fp |} ->
  (forall i c', es !! i = Some (o, c') -> c' = c) ->
  coherent {| entries := es ++ [(o, c)]; columns := cols; filepath := fp' |}.
Proof.
  unfold coherent. cbn [entries]. intros Hes Ho i j o1 c1 c2 Hi Hj.
  destruct (decide (i < length es)%nat) as [Hi'|Hi'];
    destruct (decide (j < length es)%nat) as [Hj'|Hj'].
  - rewrite lookup_app_l in Hi, Hj by assumption. eauto.
  - rewrite lookup_app_l in Hi by assumption.
    rewrite lookup_app_r in Hj by lia.
    destruct (j - length es)%nat; [|discriminate].
    injection Hj as <- <-. eauto.
  - rewrite lookup_app_l in Hj by assumption.
    rewrite lookup_app_r in Hi by lia.
    destruct (i - length es)%nat; [|discriminate].
    injection Hi as <- <-. symmetry. eauto.
  - rewrite lookup_app_r in Hi, Hj by lia.
    destruct (i - length es)%nat; [|discriminate].
    destruct (j - length es)%nat; [|discriminate].
    congruence.
Qed.

Lemma coherent_fresh (m : CSVManager) (c : card) (fp : option string)
    (cols : list string) :
  coherent m ->
  coherent {| entries := entries m ++ [(fresh_object (entries m), c)];
              columns := cols; filepath := fp |}.
Proof.
  intros Hm. apply (coherent_snoc _ _ _ cols (filepath m) fp).
  - exact Hm.
  - intros i c' Hi. exfalso.
    assert (Hin : In (fresh_object (entries m)) (map fst (entries m))).
    { apply in_map_iff. exists (fresh_object (entries m), c').
      split; [reflexivity|].
      apply list_elem_of_In, list_elem_of_lookup. eauto. }
    apply fresh_object_above in Hin. lia.
Qed.

Lemma step_coherent (o : op) (m : CSVManager) :
  coherent m -> coherent (step o m).
Proof.
  intros Hm.
  destruct o as [src path|src|card_data|index|index key value|index];
    cbn [step].
  - destruct src as [|[|fieldnames rows] [|]]; cbn [load_csv snd];
      try exact Hm.
    unfold coherent, enumerate. cbn [entries]. intros i j o c c' Hi Hj.
    rewrite lookup_enumerate_from in Hi, Hj.
    destruct (dictreader_rows fieldnames rows !! i) as [ci|] eqn:Ei;
      [|discriminate].
    destruct (dictreader_rows fieldnames rows !! j) as [cj|] eqn:Ej;
      [|discriminate].
    cbn in Hi, Hj. injection Hi as <- <-. injection Hj as Hij <-.
    assert (j = i) by lia. subst j. congruence.
  - unfold load_card_parameters_file. destruct src as [lines|]; [|exact Hm].
    destruct (fold_left parameter_line lines []) as [|e d]; [exact Hm|].
    cbn [snd]. now apply coherent_fresh.
  - unfold add_card. now apply coherent_fresh.
  - unfold remove_card. destruct (in_range index m); cbn [snd]; [|exact Hm].
    unfold coherent. cbn [entries]. intros i j o c c' Hi Hj.
    assert (Hsub : forall k e, delete (Z.to_nat index) (entries m) !! k
                               = Some e ->
                               exists k', entries m !! k' = Some e).
    { intros k e Hk.
      destruct (decide (k < Z.to_nat index)%nat).
      - rewrite list_lookup_delete_lt in Hk by assumption. eauto.
      - rewrite list_lookup_delete_ge in Hk by lia. eauto. }
    destruct (Hsub i _ Hi) as [i' Hi']. destruct (Hsub j _ Hj) as [j' Hj'].
    exact (Hm i' j' o c c' Hi' Hj').
  - unfold update_card. destruct (in_range index m); cbn [snd]; [|exact Hm].
    unfold coherent. cbn [entries]. intros i j o c c' Hi Hj.
    unfold assign in Hi, Hj.
    destruct (entries m !! Z.to_nat index) as [[target c0]|];
      [|exact (Hm i j o c c' Hi Hj)].
    change (map ?f ?l) with (f <$> l) in Hi, Hj.
    rewrite list_lookup_fmap in Hi, Hj.
    destruct (entries m !! i) as [[oi ci]|] eqn:Ei; [|discriminate].
    destruct (entries m !! j) as [[oj cj]|] eqn:Ej; [|discriminate].
    cbn [fmap option_fmap option_map fst snd] in Hi, Hj.
    destruct (Nat.eqb oi target) eqn:Eti;
      destruct (Nat.eqb oj target) eqn:Etj;
      injection Hi as <- <-; injection Hj as Hoj <-; subst oj;
      try congruence;
      now rewrite (Hm i j oi ci cj Ei Ej).
  - unfold add_stored_card.
    destruct ((0 <=? index) && (index <? Z.of_nat (length (cards m))));
      [|unfold add_card; now apply coherent_fresh].
    destruct (entries m !! Z.to_nat index) as [[o c]|] eqn:He;
      [|unfold add_card; now apply coherent_fresh].
    apply (coherent_snoc _ _ _ _ (filepath m)); [exact Hm|].
    intros i c' Hi. exact (Hm i (Z.to_nat index) o c' c Hi He).
Qed.

Lemma run_coherent (ops : list op) (m : CSVManager) :
  coherent m -> coherent (run ops m).
Proof.
  unfold run. revert m. induction ops as [|o ops IH]; intros m Hm.
  - exact Hm.
  - cbn [fold_left]. apply IH. now apply step_coherent.
Qed.

Lemma edit_through_added_row
    (m : CSVManager) (index : Z) (key value : string) :
  0 <= index < get_card_count m ->
  exists c,
    get_card index m = Some c
    /\ get_card (get_card_count m) (add_stored_card index m) = Some c
    /\ get_card index
         (snd (update_card (get_card_count m) key value
                 (add_stored_card index m)))
       = Some (card_set key value c).
Proof.
  intros Hin. pose proof (in_range_true index m Hin) as Hr.
  unfold get_card_count in *.
  destruct (lookup_lt_is_Some_2 (cards m) (Z.to_nat index)) as [c Hc]; [lia|].
  destruct (entry_of_card m _ c Hc) as [o Ho].
  exists c.
  assert (H0 : (0 <=? index) = true) by (apply Z.leb_le; lia).
  assert (Hn : (0 <=? Z.of_nat (length (cards m))) = true)
    by (apply Z.leb_le; lia).
  unfold add_stored_card. unfold in_range in Hr. rewrite Hr, Ho.
  set (m' := {| entries := entries m ++ [(o, c)]; columns := columns m;
                filepath := filepath m |}).
  assert (Hlast : entries m' !! length (cards m) = Some (o, c)).
  { unfold m'. cbn [entries]. rewrite cards_length.
    apply list_lookup_middle. reflexivity. }
  assert (Hold : entries m' !! Z.to_nat index = Some (o, c)).
  { unfold m'. cbn [entries]. rewrite lookup_app_l; [exact Ho|].
    rewrite <- cards_length. lia. }
  split; [|split].
  - rewrite get_card_lookup, H0. exact Hc.
  - rewrite get_card_lookup, Hn, Nat2Z.id, cards_lookup, Hlast. reflexivity.
  - assert (Hr' : in_range (Z.of_nat (length (cards m))) m' = true).
    { apply in_range_true. unfold get_card_count, m'.
      rewrite cards_mk, length_map, length_app, <- cards_length. cbn. lia. }
    unfold update_card. rewrite Hr'. cbn [snd].
    rewrite get_card_lookup, H0, cards_lookup. cbn [entries].
    rewrite Nat2Z.id.
    rewrite (assign_lookup _ _ key value _ o c Hlast), Hold.
    cbn [fmap option_fmap option_map fst snd]. now rewrite Nat.eqb_refl.
Qed.

(** X30: whatever is done with a manager, rows that hold one and the same
    dict read the same: loads, imports and additions bring in dicts that
    no other row holds, and a stored dict added once more is the same dict
    at both rows; so when the row at a position inside [0, count) is added
    again and the new row is edited, the old row reads the new value
    too. *)
Theorem shared_rows_read_alike (ops : list op) :
  coherent (run ops init)
  /\ forall (index : Z) (key value : string),
       0 <= index < get_card_count (run ops init) ->
       exists c,
         get_card index (run ops init) = Some c
         /\ get_card (get_card_count (run ops init))
              (add_stored_card index (run ops init)) = Some c
         /\ get_card index
              (snd (update_card (get_card_count (run ops init)) key value
                      (add_stored_card index (run ops init))))
            = Some (card_set key value c).
Proof.
  split.
  - apply run_coherent. intros i j o c c' Hi. discriminate Hi.
  - intros index key value. apply edit_through_added_row.
Qed.

Lemma shared_rows_read_alike_witness :
  let ops := [Import (Some ["IMSI=001010000000001"]); Add None] in
  exists c,
    get_card 0 (run ops init) = Some c
    /\ get_card (get_card_count (run ops init))
         (add_stored_card 0 (run ops init)) = Some c
    /\ get_card 0
         (snd (update_card (get_card_count (run ops init)) "ADM1" "12345678"
                 (add_stored_card 0 (run ops init))))
       = Some (card_set "ADM1" "12345678" c).
Proof.
  intros ops.
  apply (proj2 (shared_rows_read_alike ops) 0 "ADM1" "12345678").
  vm_compute. split; [discriminate | reflexivity].
Defined.

(** *** More on validation *)

Lemma enumerate_from_app {A : Type} (n : nat) (l1 l2 : list A) :
  enumerate_from n (l1 ++ l2)
  = enumerate_from n l1 ++ enumerate_from (n + length l1) l2.
Proof.
  revert n. induction l1 as [|x l1 IH]; intros n; cbn.
  - now rewrite Nat.add_0_r.
  - rewrite IH. do 3 f_equal. lia.
Qed.

Lemma validate_all_flat (m : CSVManager) :
  validate_all m = flat_map (validate_step []) (enumerate (cards m)).
Proof. unfold validate_all. now rewrite fold_validate_step. Qed.

Lemma dict_get_blank (k : string) (cols : list string) (d : pydict) :
  dict_get k (fold_left (fun d col => dict_set col (PyStr "") d) cols d)
  = if str_in k cols then Some (PyStr "") else dict_get k d.
Proof.
  revert d. induction cols as [|col cols IH]; intros d; cbn [fold_left].
  - reflexivity.
  - rewrite IH, dict_get_set. unfold str_in. cbn [existsb].
    fold (str_in k cols). destruct (str_in k cols);
      [now rewrite orb_true_r|].
    rewrite orb_false_r. reflexivity.
Qed.

Lemma empty_card_silent (k : string) (cols : list string)
    (test : string -> bool) :
  nonempty_and (dict_get_default k (PyStr "") (fields (empty_card cols))) test
  = false.
Proof.
  unfold dict_get_default, empty_card. cbn [fields].
  rewrite dict_get_blank. now destruct (str_in k cols).
Qed.

Lemma empty_card_no_defect (j : nat) (cols : list string) :
  validate_step [] (j, empty_card cols) = [].
Proof. unfold validate_step. now rewrite !empty_card_silent. Qed.

Lemma flagged_iff (m : CSVManager) (i : nat) (c : card) (what : string) :
  cards m !! i = Some c ->
  flagged m i what
  <-> exists r, In r rules /\ rule_fires c r = true /\ what = snd r.
Proof.
  intros Hc. unfold flagged. rewrite in_validate_all. split.
  - intros (j & c' & Hj & Hin). apply in_validate_step in Hin.
    destruct Hin as (r & Hr & Hfire & Heq).
    apply row_message_inj in Heq as [Hrow Hw].
    assert (i = j) by lia. subst j.
    exists r. repeat split; congruence.
  - intros (r & Hr & Hfire & ->). exists i, c. split; [exact Hc|].
    apply in_validate_step. exists r. auto.
Qed.

(** X13: adding a row leaves the defects of the earlier rows as they are
    and appends the defects of the new row under the next row number; an
    empty row adds no defect at all. *)
Theorem add_card_defects (m : CSVManager) :
  (forall c, validate_all (add_card (Some c) m)
             = validate_all m ++ row_errors (length (cards m)) c)
  /\ validate_all (add_card None m) = validate_all m.
Proof.
  assert (H : forall card_data,
            validate_all (add_card card_data m)
            = validate_all m
              ++ validate_step []
                   (length (cards m),
                    match card_data with
                    | None => empty_card (columns m)
                    | Some c => c
                    end)).
  { intros card_data. rewrite !validate_all_flat, added_card_eq.
    unfold enumerate. rewrite enumerate_from_app, flat_map_app.
    cbn. now rewrite app_nil_r. }
  split.
  - intros c. rewrite (H (Some c)), validate_step_row_errors. reflexivity.
  - rewrite (H None), empty_card_no_defect. apply app_nil_r.
Qed.

(** X14: at a position inside [0, count) [validate_card] returns the
    defects of that one row, always numbered as row 1: a defect is
    reported for row 1 exactly when [validate_all] reports the same defect
    for the row at that position. *)
Theorem validate_card_in_range (m : CSVManager) (index : Z) :
  0 <= index < get_card_count m ->
  exists c,
    get_card index m = Some c
    /\ validate_card index m = PyStr.Returns (row_errors 0 c)
    /\ forall what,
         In (row_message 1 what) (row_errors 0 c)
         <-> flagged m (Z.to_nat index) what.
Proof.
  intros Hin. pose proof (in_range_true index m Hin) as Hr.
  unfold get_card_count in Hin.
  destruct (lookup_lt_is_Some_2 (cards m) (Z.to_nat index)) as [c Hc]; [lia|].
  exists c.
  assert (He : exists o, entries m !! Z.to_nat index = Some (o, c)).
  { unfold cards in Hc. rewrite list_lookup_fmap in Hc.
    destruct (entries m !! Z.to_nat index) as [[o c']|]; [|discriminate].
    injection Hc as ->. eauto. }
  destruct He as [o He].
  repeat apply conj.
  - unfold get_card. now rewrite Hr.
  - unfold validate_card. rewrite Hr, He.
    rewrite <- validate_step_row_errors. reflexivity.
  - intros what. rewrite (flagged_iff m _ c what Hc).
    rewrite <- validate_step_row_errors, in_validate_step. split.
    + intros (r & Hr' & Hfire & Heq).
      apply row_message_inj in Heq as [_ Hw]. eauto.
    + intros (r & Hr' & Hfire & ->). exists r. auto.
Qed.

Lemma validate_card_in_range_witness :
  exists c,
    get_card 1 sample_batch = Some c
    /\ validate_card 1 sample_batch = PyStr.Returns (row_errors 0 c)
    /\ forall what,
         In (row_message 1 what) (row_errors 0 c)
         <-> flagged sample_batch (Z.to_nat 1) what.
Proof.
  apply (validate_card_in_range sample_batch 1).
  unfold get_card_count. cbn. lia.
Defined.

(** X15: the Validate button of the editor panel shows "All rows valid!"
    exactly when [validate_all] reports no defect for any row; otherwise
    it shows a warning whose text is the defects joined by newlines. *)
Theorem on_validate_reports (m : CSVManager) :
  (_on_validate m = ShowInfo "Validation" "All rows valid!"
   <-> forall (i : nat) (what : string), ~ flagged m i what)
  /\ (_on_validate m = ShowInfo "Validation" "All rows valid!"
      \/ _on_validate m
         = ShowWarning "Validation" (join newline (validate_all m))).
Proof.
  unfold _on_validate. split.
  - destruct (validate_all m) as [|msg l] eqn:E.
    + split; [|reflexivity]. intros _ i what. unfold flagged. now rewrite E.
    + split; [discriminate|]. intros H. exfalso.
      assert (Hin : In msg (validate_all m)) by (rewrite E; now left).
      pose proof Hin as Hin'. apply in_validate_all in Hin.
      destruct Hin as (j & c & Hj & Hstep).
      apply in_validate_step in Hstep.
      destruct Hstep as (r & _ & _ & ->). exact (H j (snd r) Hin').
  - destruct (validate_all m); [left | right]; reflexivity.
Qed.

(** *** More on loading and saving *)

(** X16: a load that answers [False] leaves the rows and the recorded file
    path as they were; the columns are as they were too unless the file
    broke after its header, in which case they are that header. *)
Theorem failed_load_keeps_rows
    (src : csv_source) (path : string) (m : CSVManager) :
  fst (load_csv src path m) = false ->
  cards (snd (load_csv src path m)) = cards m
  /\ filepath (snd (load_csv src path m)) = filepath m
  /\ (columns (snd (load_csv src path m)) = columns m
      \/ exists fieldnames rows,
           src = Readable (fieldnames :: rows) true
           /\ columns (snd (load_csv src path m)) = fieldnames).
Proof.
  unfold load_csv. destruct src as [|[|fieldnames rows] [|]]; cbn;
    intros H; try discriminate; repeat split; auto.
  right. eauto.
Qed.

Lemma failed_load_keeps_rows_witness :
  cards (snd (load_csv (Readable [["ICCID"; "PIN"]; ["8988211"; "1234"]] true)
                       "broken.csv" sample_batch))
  = cards sample_batch
  /\ filepath (snd (load_csv
                      (Readable [["ICCID"; "PIN"]; ["8988211"; "1234"]] true)
                      "broken.csv" sample_batch))
     = filepath sample_batch
  /\ (columns (snd (load_csv
                      (Readable [["ICCID"; "PIN"]; ["8988211"; "1234"]] true)
                      "broken.csv" sample_batch))
      = columns sample_batch
      \/ exists fieldnames rows,
           Readable [["ICCID"; "PIN"]; ["8988211"; "1234"]] true
           = Readable (fieldnames :: rows) true
           /\ columns (snd (load_csv
                (Readable [["ICCID"; "PIN"]; ["8988211"; "1234"]] true)
                "broken.csv" sample_batch)) = fieldnames).
Proof.
  apply (failed_load_keeps_rows
           (Readable [["ICCID"; "PIN"]; ["8988211"; "1234"]] true)
           "broken.csv" sample_batch).
  reflexivity.
Defined.

Lemma dict_get_set_present (k k0 : string) (v : pyval) (d : pydict) :
  dict_get k (dict_set k0 v d) <> None <-> k = k0 \/ dict_get k d <> None.
Proof.
  rewrite dict_get_set. destruct (String.eqb k k0) eqn:E.
  - apply String.eqb_eq in E. split; [auto | discriminate].
  - apply String.eqb_neq in E. tauto.
Qed.

Lemma dict_of_zip_present (k : string) (ks : list string)
    (vs : list pyval) (d : pydict) :
  dict_get k (dict_of_zip ks vs d) <> None
  <-> In k (take (length vs) ks) \/ dict_get k d <> None.
Proof.
  revert vs d. induction ks as [|k0 ks IH]; intros [|v vs] d;
    cbn [dict_of_zip length take]; try (cbn; tauto).
  rewrite IH, dict_get_set_present. cbn [In]. split.
  - intros [H|[H|H]]; auto.
  - intros [[H|H]|H]; auto.
Qed.

Lemma fold_set_none_present (k : string) (ks : list string) (d : pydict) :
  dict_get k (fold_left (fun d key => dict_set key PyNone d) ks d) <> None
  <-> In k ks \/ dict_get k d <> None.
Proof.
  revert d. induction ks as [|k0 ks IH]; intros d; cbn [fold_left In].
  - tauto.
  - rewrite IH, dict_get_set_present. split.
    + intros [H|[H|H]]; auto.
    + intros [[H|H]|H]; auto.
Qed.

Lemma dictreader_row_keys (fieldnames row : list string) (k : string) :
  dict_get k (fields (dictreader_row fieldnames row)) <> None
  <-> In k fieldnames.
Proof.
  unfold dictreader_row.
  destruct (length fieldnames <? length row)%nat eqn:E; cbn [fields].
  - apply Nat.ltb_lt in E. rewrite dict_of_zip_present, length_map.
    rewrite take_ge by lia. cbn. tauto.
  - rewrite fold_set_none_present, dict_of_zip_present, length_map.
    cbn [dict_get].
    rewrite <- (take_drop (length row) fieldnames) at 3.
    rewrite in_app_iff. tauto.
Qed.

(** X17: a load that answers [True] has read a file with a header: the
    columns are that header, the file path is recorded, there is one row
    per data row of the file that is not blank, and every row has an entry
    (a text or [None]) under exactly the names of the header. *)
Theorem successful_load_shape
    (src : csv_source) (path : string) (m : CSVManager) :
  fst (load_csv src path m) = true ->
  exists fieldnames rows,
    src = Readable (fieldnames :: rows) false
    /\ columns (snd (load_csv src path m)) = fieldnames
    /\ filepath (snd (load_csv src path m)) = Some path
    /\ length (cards (snd (load_csv src path m)))
       = length (List.filter (fun r => negb (is_blank_row r)) rows)
    /\ forall c, In c (cards (snd (load_csv src path m))) ->
       forall k, dict_get k (fields c) <> None <-> In k fieldnames.
Proof.
  unfold load_csv. destruct src as [|[|fieldnames rows] [|]]; cbn [fst snd];
    intros H; try discriminate.
  exists fieldnames, rows. rewrite cards_enumerate. cbn [columns filepath].
  repeat apply conj; try reflexivity.
  - unfold dictreader_rows. now rewrite length_map.
  - intros c Hc k. unfold dictreader_rows in Hc.
    apply in_map_iff in Hc as (row & <- & _). apply dictreader_row_keys.
Qed.

Lemma successful_load_shape_witness :
  exists fieldnames rows,
    Readable [["ICCID"; "IMSI"]; []; ["8988211"]; ["1"; "2"; "3"]] false
    = Readable (fieldnames :: rows) false
    /\ columns (snd (load_csv
         (Readable [["ICCID"; "IMSI"]; []; ["8988211"]; ["1"; "2"; "3"]] false)
         "batch.csv" init)) = fieldnames
    /\ filepath (snd (load_csv
         (Readable [["ICCID"; "IMSI"]; []; ["8988211"]; ["1"; "2"; "3"]] false)
         "batch.csv" init)) = Some "batch.csv"
    /\ length (cards (snd (load_csv
         (Readable [["ICCID"; "IMSI"]; []; ["8988211"]; ["1"; "2"; "3"]] false)
         "batch.csv" init)))
       = length (List.filter (fun r => negb (is_blank_row r)) rows)
    /\ forall c, In c (cards (snd (load_csv
         (Readable [["ICCID"; "IMSI"]; []; ["8988211"]; ["1"; "2"; "3"]] false)
         "batch.csv" init))) ->
       forall k, dict_get k (fields c) <> None <-> In k fieldnames.
Proof.
  apply (successful_load_shape
    (Readable [["ICCID"; "IMSI"]; []; ["8988211"]; ["1"; "2"; "3"]] false)
    "batch.csv" init).
  reflexivity.
Defined.

Lemma dict_of_zip_absent (k : string) (ks : list string)
    (vs : list pyval) (d : pydict) :
  ~ In k ks -> dict_get k (dict_of_zip ks vs d) = dict_get k d.
Proof.
  revert vs d. induction ks as [|k0 ks IH]; intros [|v vs] d Hk;
    cbn [dict_of_zip]; try reflexivity.
  rewrite IH, dict_get_set.
  - destruct (String.eqb k k0) eqn:E; [|reflexivity].
    apply String.eqb_eq in E. subst. exfalso. apply Hk. now left.
  - intros H. apply Hk. now right.
Qed.

Lemma dict_of_zip_by_position (ks : list string) (vs : list pyval)
    (d : pydict) :
  List.NoDup ks -> length vs = length ks ->
  map (fun k => dict_get k (dict_of_zip ks vs d)) ks = map Some vs.
Proof.
  revert vs d. induction ks as [|k0 ks IH]; intros [|v vs] d Hnd Hlen;
    try discriminate; [reflexivity|].
  inversion Hnd as [|? ? Hk Hks]; subst. cbn [dict_of_zip map]. f_equal.
  - rewrite dict_of_zip_absent by exact Hk.
    now rewrite dict_get_set, String.eqb_refl.
  - apply IH; [exact Hks|]. cbn in Hlen. lia.
Qed.

Lemma dictreader_row_cells (fieldnames row : list string) :
  List.NoDup fieldnames -> length row = length fieldnames ->
  dict_to_list fieldnames (dictreader_row fieldnames row) = row.
Proof.
  intros Hnd Hlen. unfold dictreader_row.
  rewrite Hlen, Nat.ltb_irrefl, drop_all. cbn [fold_left fields].
  unfold dict_to_list, dict_get_default. cbn [fields].
  transitivity
    (map (fun o : option pyval =>
            cell_text match o with Some v => v | None => PyStr "" end)
         (map (fun k => dict_get k
                 (dict_of_zip fieldnames (map PyStr row) []))
              fieldnames)).
  - now rewrite map_map.
  - rewrite dict_of_zip_by_position by (rewrite ?length_map; auto).
    rewrite !map_map. cbn. apply map_id.
Qed.

(** X18: loading a file whose header is not empty and repeats no name and
    whose rows are all as wide as the header, and saving at once, writes
    the same header and the same rows back. *)
Theorem load_then_save
    (fieldnames : list string) (rows : list (list string))
    (path path' : string) (m : CSVManager) :
  rectangular fieldnames rows ->
  snd (save_csv true path'
         (snd (load_csv (Readable (fieldnames :: rows) false) path m)))
  = Some (fieldnames :: rows).
Proof.
  intros (Hne & Hnd & Hrows). cbn [load_csv save_csv snd fst columns].
  rewrite cards_enumerate. do 2 f_equal.
  unfold dictreader_rows.
  induction rows as [|row rows IH]; [reflexivity|].
  assert (Hlen : length row = length fieldnames)
    by (apply Hrows; now left).
  assert (Hnb : is_blank_row row = false).
  { destruct row; [|reflexivity]. destruct fieldnames; [contradiction|].
    discriminate. }
  cbn [List.filter]. rewrite Hnb. cbn [negb map].
  rewrite dictreader_row_cells by assumption. f_equal.
  apply IH. intros r Hr. apply Hrows. now right.
Qed.

Lemma load_then_save_witness :
  snd (save_csv true "copy.csv"
         (snd (load_csv
                 (Readable [["ICCID"; "IMSI"];
                            ["8988211000000000001"; "001010000000001"];
                            [""; "001010000000002"]] false)
                 "batch.csv" init)))
  = Some [["ICCID"; "IMSI"];
          ["8988211000000000001"; "001010000000001"];
          [""; "001010000000002"]].
Proof.
  apply (load_then_save ["ICCID"; "IMSI"]
           [["8988211000000000001"; "001010000000001"];
            [""; "001010000000002"]] "batch.csv" "copy.csv" init).
  split; [discriminate|]. split.
  - repeat constructor; cbn; intuition discriminate.
  - intros row [<-|[<-|[]]]; reflexivity.
Defined.

(** X19: a save that cannot open its file writes nothing and leaves the
    manager as it was; a save that can writes the header and one row per
    record, every row written being as wide as the column set, and
    changes nothing in the manager but the recorded file path. *)
Theorem save_writes_a_table
    (writable : bool) (path : string) (m : CSVManager) :
  (writable = false -> save_csv writable path m = (false, m, None))
  /\ cards (snd (fst (save_csv writable path m))) = cards m
  /\ columns (snd (fst (save_csv writable path m))) = columns m
  /\ (forall rows, snd (save_csv writable path m) = Some rows ->
        fst (fst (save_csv writable path m)) = true
        /\ filepath (snd (fst (save_csv writable path m))) = Some path
        /\ length rows = S (length (cards m))
        /\ forall row, In row rows -> length row = length (columns m)).
Proof.
  unfold save_csv. destruct writable; cbn [fst snd columns filepath];
    rewrite ?cards_mk; fold (cards m).
  - split; [discriminate|]. split; [reflexivity|]. split; [reflexivity|].
    intros rows [= <-]. repeat apply conj; try reflexivity.
    + cbn [length]. now rewrite length_map.
    + intros row [<-|Hin]; [reflexivity|].
      apply in_map_iff in Hin as (c & <- & _).
      unfold dict_to_list. apply length_map.
  - split; [reflexivity|]. split; [reflexivity|]. split; [reflexivity|].
    intros rows H. discriminate H.
Qed.

Lemma save_writes_a_table_witness :
  save_csv false "/readonly/batch.csv" sample_batch
  = (false, sample_batch, None)
  /\ (forall rows, snd (save_csv true "batch.csv" sample_batch) = Some rows ->
        length rows = S (length (cards sample_batch))).
Proof.
  split.
  - apply (proj1 (save_writes_a_table false "/readonly/batch.csv"
                    sample_batch)).
    reflexivity.
  - intros rows Hrows.
    apply (proj2 (proj2 (proj2
             (save_writes_a_table true "batch.csv" sample_batch)))
             rows Hrows).
Defined.




(** *** More on parameter files *)

Lemma merge_columns_In (k : string) (keys cols : list string) :
  In k (merge_columns cols keys) <-> In k cols \/ In k keys.
Proof.
  unfold merge_columns. revert cols.
  induction keys as [|k0 keys IH]; intros cols; cbn [fold_left In].
  - tauto.
  - rewrite IH. destruct (str_in k0 cols) eqn:E.
    + apply str_in_In in E. split; [tauto|].
      intros [H|[<-|H]]; auto.
    + rewrite in_app_iff. cbn. tauto.
Qed.

(** X21: a parameter-file import that answers [False] leaves the manager
    as it was; one that answers [True] has appended exactly one row after
    the rows already there, made of the assignments of the file under
    distinct keys, and every key of that row is a column afterwards. *)
Theorem import_outcome (src : option (list string)) (m : CSVManager) :
  (fst (load_card_parameters_file src m) = false ->
     snd (load_card_parameters_file src m) = m)
  /\ (fst (load_card_parameters_file src m) = true ->
      exists lines card_data,
        src = Some lines
        /\ card_data = fold_left parameter_line lines []
        /\ card_data <> []
        /\ List.NoDup (dict_keys card_data)
        /\ cards (snd (load_card_parameters_file src m))
           = cards m ++ [ {| fields := card_data; rest := None |} ]
        /\ filepath (snd (load_card_parameters_file src m)) = filepath m
        /\ forall k, In k (dict_keys card_data) ->
                     In k (columns (snd (load_card_parameters_file src m)))).
Proof.
  unfold load_card_parameters_file. destruct src as [lines|].
  - pose proof (parameter_lines_NoDup lines [] (List.NoDup_nil _)) as Hnd.
    destruct (fold_left parameter_line lines []) as [|e d] eqn:E;
      cbn [fst snd].
    + split; [reflexivity | discriminate].
    + split; [discriminate|]. intros _. exists lines, (e :: d).
      rewrite cards_mk, map_app. fold (cards m). cbn [columns filepath].
      repeat apply conj; auto; try discriminate.
      intros k Hk. apply merge_columns_In. now right.
  - cbn. split; [reflexivity | discriminate].
Qed.

Lemma import_outcome_witness :
  snd (load_card_parameters_file (Some ["# nothing here"; ""; "no equals"])
                                 sample_batch)
  = sample_batch.
Proof.
  apply (proj1 (import_outcome (Some ["# nothing here"; ""; "no equals"])
                  sample_batch)).
  reflexivity.
Defined.

Lemma parameter_line_parse (d : pydict) (line : string) :
  parameter_line d line
  = match parse_line line with
    | Some (k, v) => dict_set k (PyStr v) d
    | None => d
    end.
Proof.
  unfold parameter_line, parse_line.
  destruct (negb (PyStr.truthy (PyStr.strip line))
            || PyStr.startswith_char "#" (PyStr.strip line)); [reflexivity|].
  destruct (PyStr.partition "=" (PyStr.strip line)) as [[key found] value].
  now destruct found.
Qed.

Lemma parameter_lines_app (l1 l2 : list string) (d : pydict) :
  fold_left parameter_line (l1 ++ l2) d
  = fold_left parameter_line l2 (fold_left parameter_line l1 d).
Proof. apply fold_left_app. Qed.

Lemma parameter_lines_untouched (k : string) (lines : list string)
    (d : pydict) :
  (forall l v, In l lines -> parse_line l <> Some (k, v)) ->
  dict_get k (fold_left parameter_line lines d) = dict_get k d.
Proof.
  revert d. induction lines as [|l lines IH]; intros d H; [reflexivity|].
  cbn [fold_left]. rewrite IH.
  - rewrite parameter_line_parse.
    destruct (parse_line l) as [[k' v']|] eqn:E; [|reflexivity].
    rewrite dict_get_set. destruct (String.eqb k k') eqn:Ek; [|reflexivity].
    apply String.eqb_eq in Ek. subst k'.
    exfalso. apply (H l v'); [now left | exact E].
  - intros l' v' Hin. apply H. now right.
Qed.

Lemma assignment_dec (k : string) (lines : list string) :
  (exists line v, In line lines /\ parse_line line = Some (k, v))
  \/ ~ (exists line v, In line lines /\ parse_line line = Some (k, v)).
Proof.
  induction lines as [|l lines [IH|IH]].
  - right. intros (line & v & [] & _).
  - left. destruct IH as (line & v & Hin & H). exists line, v.
    split; [now right | exact H].
  - destruct (parse_line l) as [[k' v']|] eqn:E.
    + destruct (String.eqb k k') eqn:Ek.
      * apply String.eqb_eq in Ek. subst k'. left. exists l, v'.
        split; [now left | exact E].
      * apply String.eqb_neq in Ek. right.
        intros (line & v & [<-|Hin] & H); [congruence|].
        apply IH. eauto.
    + right. intros (line & v & [<-|Hin] & H); [congruence|].
      apply IH. eauto.
Qed.

Lemma last_assignment (k : string) (lines : list string)
    (line v : string) :
  In line lines -> parse_line line = Some (k, v) ->
  exists before line' after v',
    lines = before ++ line' :: after
    /\ parse_line line' = Some (k, v')
    /\ forall l v'', In l after -> parse_line l <> Some (k, v'').
Proof.
  revert line v. induction lines as [|l0 lines IH]; intros line v Hin Hline.
  - destruct Hin.
  - destruct (assignment_dec k lines) as [(l2 & v2 & Hin2 & H2)|Hnone].
    + destruct (IH l2 v2 Hin2 H2) as (before & l' & after & v' & -> & Hl' & Ha).
      exists (l0 :: before), l', after, v'. auto.
    + destruct Hin as [<-|Hin].
      * exists [], l0, lines, v. repeat apply conj; auto.
        intros l v'' Hl E. apply Hnone. eauto.
      * exfalso. apply Hnone. eauto.
Qed.

Lemma assigned_value (lines : list string) (k : string)
    (before : list string) (line : string) (after : list string)
    (v : string) :
  lines = before ++ line :: after ->
  parse_line line = Some (k, v) ->
  (forall l v', In l after -> parse_line l <> Some (k, v')) ->
  dict_get k (fold_left parameter_line lines []) = Some (PyStr v).
Proof.
  intros -> Hline Hafter.
  rewrite parameter_lines_app. cbn [fold_left].
  rewrite (parameter_lines_untouched k after) by exact Hafter.
  rewrite parameter_line_parse, Hline, dict_get_set, String.eqb_refl.
  reflexivity.
Qed.

Lemma imported_value_lines (lines : list string) (k : string) :
  dict_get k (fold_left parameter_line lines []) <> None
  <-> exists line v, In line lines /\ parse_line line = Some (k, v).
Proof.
  split.
  - intros Hget.
    destruct (assignment_dec k lines) as [H|H].
    + exact H.
    + exfalso. apply Hget.
      rewrite parameter_lines_untouched; [reflexivity|].
      intros l v Hin E. apply H. eauto.
  - intros (line & v & Hin & Hline).
    destruct (last_assignment k lines line v Hin Hline)
      as (before & line' & after & v' & Heq & Hl' & Hafter).
    rewrite (assigned_value lines k before line' after v' Heq Hl' Hafter).
    discriminate.
Qed.

(** X22: in the record a parameter file yields, a key is present exactly
    when some line of the file assigns it, and its value is the one of the
    last line that assigns it. *)
Theorem imported_value_is_last_assignment (lines : list string) (k : string) :
  (dict_get k (fold_left parameter_line lines []) <> None
   <-> exists line v, In line lines /\ parse_line line = Some (k, v))
  /\ (forall before line after v,
        lines = before ++ line :: after ->
        parse_line line = Some (k, v) ->
        (forall l v', In l after -> parse_line l <> Some (k, v')) ->
        dict_get k (fold_left parameter_line lines []) = Some (PyStr v)).
Proof.
  split; [apply imported_value_lines | apply assigned_value].
Qed.


Lemma imported_value_is_last_assignment_witness :
  dict_get "IMSI"
    (fold_left parameter_line ["IMSI=001010000000001";
                               " IMSI = 001010000000002 "] [])
  = Some (PyStr "001010000000002").
Proof.
  apply (proj2 (imported_value_is_last_assignment
                  ["IMSI=001010000000001"; " IMSI = 001010000000002 "]
                  "IMSI")
           ["IMSI=001010000000001"] " IMSI = 001010000000002 " []
           "001010000000002");
    [reflexivity | reflexivity | intros l v' []].
Defined.









(** *** Keys within the columns *)









Lemma merge_columns_NoDup (cols keys : list string) :
  List.NoDup cols -> List.NoDup (merge_columns cols keys).
Proof.
  unfold merge_columns. revert cols.
  induction keys as [|k keys IH]; intros cols H; cbn [fold_left]; [exact H|].
  apply IH. destruct (str_in k cols) eqn:E; [exact H|].
  apply List.NoDup_app; [exact H | repeat constructor; intros [] |].
  intros a Ha [<-|[]]. apply str_in_In in Ha. congruence.
Qed.

(** X25: as long as no file is loaded, the column set repeats no name:
    from a new manager, parameter-file imports, additions, removals and
    edits leave the columns without duplicates. *)
Theorem columns_stay_distinct (ops : list op) :
  forallb (fun o => negb (is_load o)) ops = true ->
  List.NoDup (columns (run ops init)).
Proof.
  assert (H : forall m, List.NoDup (columns m) ->
            forallb (fun o => negb (is_load o)) ops = true ->
            List.NoDup (columns (run ops m))).
  { unfold run. induction ops as [|o ops IH]; intros m Hm Hops; [exact Hm|].
    cbn [forallb] in Hops. apply andb_prop in Hops as [Ho Hops].
    cbn [fold_left]. apply IH; [|exact Hops].
    destruct o as [src path|src|card_data|index|index key value|index];
      cbn [step is_load negb] in *; try discriminate.
    - unfold load_card_parameters_file. destruct src as [lines|]; [|exact Hm].
      destruct (fold_left parameter_line lines []); [exact Hm|].
      cbn [snd columns]. now apply merge_columns_NoDup.
    - exact Hm.
    - unfold remove_card. now destruct (in_range index m).
    - unfold update_card. now destruct (in_range index m).
    - now rewrite add_stored_card_columns. }
  apply H. cbn. repeat constructor; cbn; intuition discriminate.
Qed.

Lemma columns_stay_distinct_witness :
  List.NoDup
    (columns (run [Import (Some ["IMSI=1"; "NOTE=a"; "PIN=0000"]);
                   Import (Some ["NOTE=b"; "PUK=12345678"]);
                   Remove 0] init)).
Proof.
  apply (columns_stay_distinct
           [Import (Some ["IMSI=1"; "NOTE=a"; "PIN=0000"]);
            Import (Some ["NOTE=b"; "PUK=12345678"]); Remove 0]).
  reflexivity.
Defined.

(** *** The table of the editor panel *)

Lemma map_snd_enumerate_from {A B : Type} (f : A -> B) (n : nat)
    (l : list A) :
  map (fun ic : nat * A => f (snd ic)) (enumerate_from n l) = map f l.
Proof.
  revert n. induction l as [|x l IH]; intros n; cbn; [reflexivity|].
  now rewrite IH.
Qed.

(** X27: the table the editor panel shows has the columns as headings and
    one line per row, in order, the line of row [i] carrying the item id
    [i] in decimal and one cell per column.  A cell shows the text a save
    writes at the same place, except where the row holds [None] under the
    column: there the table shows "None" and the save writes the empty
    text.  So for a batch without [None] under any column the lines of
    the table are, text for text, the rows a save writes under the same
    header. *)
Theorem refresh_table_shows_what_is_saved (m : CSVManager) (path : string) :
  headings (_refresh_table m) = columns m
  /\ length (lines (_refresh_table m)) = length (cards m)
  /\ (forall (i : nat) (c : card), cards m !! i = Some c ->
        exists cells,
          lines (_refresh_table m) !! i
          = Some (PyStr.of_int (Z.of_nat i), cells)
          /\ length cells = length (columns m)
          /\ forall (j : nat) (col : string), columns m !! j = Some col ->
               exists shown saved,
                 cells !! j = Some shown
                 /\ dict_to_list (columns m) c !! j = Some saved
                 /\ (dict_get col (fields c) = Some PyNone ->
                       shown = "None" /\ saved = "")
                 /\ (dict_get col (fields c) <> Some PyNone ->
                       shown = saved))
  /\ ((forall c col, In c (cards m) -> In col (columns m) ->
          dict_get col (fields c) <> Some PyNone) ->
      snd (save_csv true path m)
      = Some (headings (_refresh_table m)
              :: map snd (lines (_refresh_table m)))).
Proof.
  unfold _refresh_table. cbn [save_csv snd headings lines].
  split; [reflexivity|]. split; [|split].
  - rewrite length_map. unfold enumerate.
    rewrite <- (length_map snd), (map_snd_enumerate_from (fun x => x)).
    now rewrite map_id.
  - intros i c Hc. eexists. split; [|split].
    + change (map ?f ?l) with (f <$> l) at 1.
      rewrite list_lookup_fmap. unfold enumerate.
      rewrite lookup_enumerate_from, Hc. cbn. reflexivity.
    + apply length_map.
    + intros j col Hcol. unfold dict_to_list.
      exists (tk_text (dict_get_default col (PyStr "") (fields c))),
             (cell_text (dict_get_default col (PyStr "") (fields c))).
      split; [now rewrite list_lookup_fmap, Hcol|].
      split; [now rewrite list_lookup_fmap, Hcol|].
      unfold dict_get_default.
      destruct (dict_get col (fields c)) as [[|s]|]; cbn.
      * split; [auto | intros H; now contradiction H].
      * split; [discriminate | reflexivity].
      * split; [discriminate | reflexivity].
  - intros Hnone. do 2 f_equal. rewrite map_map. unfold enumerate.
    rewrite (map_ext _
               (fun ic : nat * card =>
                  map (fun col =>
                         tk_text (dict_get_default col (PyStr "")
                                    (fields (snd ic))))
                      (columns m)))
      by (intros [i c]; reflexivity).
    rewrite (map_snd_enumerate_from
               (fun c => map (fun col =>
                                tk_text (dict_get_default col (PyStr "")
                                           (fields c)))
                             (columns m)) 0).
    apply map_ext_in. intros c Hc. unfold dict_to_list.
    apply map_ext_in. intros col Hcol.
    specialize (Hnone c col Hc Hcol). unfold dict_get_default.
    destruct (dict_get col (fields c)) as [[|s]|]; cbn;
      [now contradiction Hnone | reflexivity | reflexivity].
Qed.

Lemma refresh_table_shows_what_is_saved_witness :
  (exists cells,
     lines (_refresh_table sample_batch) !! 2%nat = Some ("2", cells)
     /\ length cells = length (columns sample_batch)
     /\ forall (j : nat) (col : string),
          columns sample_batch !! j = Some col ->
          exists shown saved,
            cells !! j = Some shown
            /\ dict_to_list (columns sample_batch)
                 {| fields :=
                      [("IMSI", PyStr "001010000000003");
                       ("Ki", PyStr "00 11 22 33 44 55 66 77 88 99 AA BB CC DD EE FF");
                       ("OPc", PyNone); ("ADM1", PyStr "")];
                    rest := None |} !! j = Some saved
            /\ (dict_get col
                   [("IMSI", PyStr "001010000000003");
                    ("Ki", PyStr "00 11 22 33 44 55 66 77 88 99 AA BB CC DD EE FF");
                    ("OPc", PyNone); ("ADM1", PyStr "")] = Some PyNone ->
                  shown = "None" /\ saved = "")
            /\ (dict_get col
                   [("IMSI", PyStr "001010000000003");
                    ("Ki", PyStr "00 11 22 33 44 55 66 77 88 99 AA BB CC DD EE FF");
                    ("OPc", PyNone); ("ADM1", PyStr "")] <> Some PyNone ->
                  shown = saved))
  /\ snd (save_csv true "batch.csv" (add_card (Some annotated_card) init))
     = Some (headings (_refresh_table (add_card (Some annotated_card) init))
             :: map snd
                  (lines (_refresh_table
                            (add_card (Some annotated_card) init)))).
Proof.
  split.
  - apply (proj1 (proj2 (proj2 (refresh_table_shows_what_is_saved
                                  sample_batch "batch.csv"))) 2%nat).
    reflexivity.
  - apply (proj2 (proj2 (proj2 (refresh_table_shows_what_is_saved
                                  (add_card (Some annotated_card) init)
                                  "batch.csv")))).
    intros c col Hc _. vm_compute in Hc. destruct Hc as [<-|[]].
    cbn [dict_get fields].
    destruct (String.eqb col "ICCID"); [discriminate|].
    destruct (String.eqb col "NOTE"); discriminate.
Defined.

Example table_shows_none :
  map snd (lines (_refresh_table sample_batch)) !! 2%nat
  = Some [""; "001010000000003";
          "00 11 22 33 44 55 66 77 88 99 AA BB CC DD EE FF"; "None"; "";
          ""; ""; ""; ""; ""; ""]
  /\ (forall rows, snd (save_csv true "batch.csv" sample_batch) = Some rows ->
      rows !! 3%nat
      = Some [""; "001010000000003";
              "00 11 22 33 44 55 66 77 88 99 AA BB CC DD EE FF"; ""; "";
              ""; ""; ""; ""; ""; ""]).
Proof. split; [reflexivity|]. intros rows [= <-]. reflexivity. Qed.

End CsvProps.
